(** * Financial assistant backend: classification, routing and reasoning

    A shallow embedding of [app/services/gemini_service.py],
    [app/services/financial_service.py], the key derivation of
    [app/services/pinecone_service.py], the routes of [app/api/financial.py],
    the pydantic schemas of [app/schemas/financial.py] and the tables of
    [app/models/financial.py], followed by the properties of the pipeline.

    Conventions of the embedding.
    - A Python [float] is a binary64 value: Rocq's primitive [float].
    - A Python [str] is a [string]; the development covers texts made of
      ASCII characters (a byte above 127 is a caseless character that is
      neither a digit nor punctuation).
    - A raised exception is the left summand of [exn + A].
    - The relational store is a pair of tables; a SQLAlchemy session is a
      working copy of the tables that [commit] publishes atomically or
      discards. The store can refuse a commit; its reads go through.
    - Requests are served one after the other.
    - What the outside world decides (the generative backend, the vector
      index, whether a commit goes through, the clock) is read from a
      [World] record, one per request. *)

From Stdlib Require Import ZArith Lia Bool Ascii String List.
From Stdlib Require Import PrimFloat SpecFloat FloatOps FloatAxioms.
From stdpp Require Import base option list gmap strings.
From Stdlib Require Import Sorted.

Set Warnings "-inexact-float".
Local Open Scope Z_scope.

(* ===================================================================== *)
(** * Python strings *)
(* ===================================================================== *)

Module PyStr.

Definition is_digit (c : ascii) : bool :=
  let n := N_of_ascii c in (48 <=? n)%N && (n <=? 57)%N.

Definition digit_val (c : ascii) : Z := Z.of_N (N_of_ascii c) - 48.

Definition is_upper (c : ascii) : bool :=
  let n := N_of_ascii c in (65 <=? n)%N && (n <=? 90)%N.

Definition lower_char (c : ascii) : ascii :=
  if is_upper c then ascii_of_N (N_of_ascii c + 32) else c.

(** [str.lower()] *)
Fixpoint lower (s : string) : string :=
  match s with
  | EmptyString => EmptyString
  | String c s' => String (lower_char c) (lower s')
  end.

(** [s.replace(c, '')] for a one-character [c] *)
Fixpoint remove_char (c : ascii) (s : string) : string :=
  match s with
  | EmptyString => EmptyString
  | String d s' =>
      if Ascii.eqb d c then remove_char c s' else String d (remove_char c s')
  end.

(** [needle in s] *)
Fixpoint contains (needle s : string) : bool :=
  String.prefix needle s
  || match s with
     | EmptyString => false
     | String _ s' => contains needle s'
     end.

(** [any(word in s for word in words)] *)
Definition contains_any (words : list string) (s : string) : bool :=
  existsb (fun w => contains w s) words.

Fixpoint take (n : nat) (s : string) : string :=
  match n, s with
  | S k, String c s' => String c (take k s')
  | _, _ => EmptyString
  end.

Fixpoint drop (n : nat) (s : string) : string :=
  match n, s with
  | S k, String _ s' => drop k s'
  | _, _ => s
  end.

(** Length of the longest prefix made of digits. *)
Fixpoint span_digits (s : string) : nat :=
  match s with
  | String c s' => if is_digit c then S (span_digits s') else 0%nat
  | EmptyString => 0%nat
  end.

Fixpoint all_digits (s : string) : bool :=
  match s with
  | EmptyString => true
  | String c s' => is_digit c && all_digits s'
  end.

Fixpoint has_digit (s : string) : bool :=
  match s with
  | EmptyString => false
  | String c s' => is_digit c || has_digit s'
  end.

(** Value of a string of digits read in base ten, most significant first. *)
Fixpoint digits_value (acc : Z) (s : string) : Z :=
  match s with
  | EmptyString => acc
  | String c s' => digits_value (10 * acc + digit_val c) s'
  end.

Definition digit_char (d : Z) : ascii := ascii_of_N (Z.to_N (48 + d)).

Fixpoint digits_of (fuel : nat) (n : Z) (acc : string) : string :=
  match fuel with
  | O => acc
  | S k =>
      let acc' := String (digit_char (n mod 10)) acc in
      if n / 10 =? 0 then acc' else digits_of k (n / 10) acc'
  end.

(** [str(n)] for an integer *)
Definition of_Z (n : Z) : string :=
  let body := digits_of (S (Z.to_nat (Z.log2 (Z.abs n)))) (Z.abs n) EmptyString in
  if n <? 0 then String "-" body else body.

End PyStr.

(* ===================================================================== *)
(** * Exceptions and the error monad *)
(* ===================================================================== *)

Inductive exn : Type :=
| ValueError                                  (* [float()] on a malformed literal *)
| TypeError                                   (* arithmetic on [None] *)
| ValidationError (model : string)            (* pydantic refused the data for a model *)
| SQLAlchemyError                             (* the relational store refused a commit *)
| PineconeError.                              (* the vector index or the embedding step failed *)

Definition is_ok {A} (r : exn + A) : bool :=
  match r with inr _ => true | inl _ => false end.

(* ===================================================================== *)
(** * Python floats *)
(* ===================================================================== *)

Module PyFloat.

(** [bool(x)] for a float: every value but the two zeros is true. *)
Definition truthy (x : float) : bool := negb (PrimFloat.eqb x 0%float).

(** The binary64 value nearest to [p / q] (ties to even), for [0 <= p]
    and [0 < q]. The quotient is taken with enough extra bits, and the
    lowest bit records whether anything was lost. *)
Definition of_ratio (p q : Z) : float :=
  if p =? 0 then 0%float
  else
    let s := Z.log2 q + 65 in
    let n := p * 2 ^ s in
    let sticky := if n mod q =? 0 then 0 else 1 in
    SF2Prim (binary_normalize prec emax (2 * (n / q) + sticky) (- s - 1) false).

(** [float(n)] for an integer; Python raises [OverflowError] where the
    nearest binary64 value is infinite, which is [None] here. *)
Definition of_Z (n : Z) : option float :=
  let x := SF2Prim (binary_normalize prec emax n 0 false) in
  if is_infinity x then None else Some x.

(** [float(s)] for an unsigned decimal literal: digits, then optionally a
    point and digits, with a digit somewhere. The grammar of [float()] is
    larger (signs, exponents, [inf], [nan], blanks, underscores); those
    forms are outside this embedding and count as malformed, which does
    not matter to the only caller, that passes matches of a digit
    pattern. *)
Definition float_of_str (s : string) : exn + float :=
  let i := PyStr.span_digits s in
  let ip := PyStr.take i s in
  match PyStr.drop i s with
  | EmptyString =>
      if (i =? 0)%nat then inl ValueError
      else inr (of_ratio (PyStr.digits_value 0 ip) 1)
  | String "."%char fr =>
      if PyStr.all_digits fr && negb ((i + String.length fr =? 0)%nat)
      then inr (of_ratio (PyStr.digits_value 0 (ip +:+ fr))
                         (10 ^ Z.of_nat (String.length fr)))
      else inl ValueError
  | _ => inl ValueError
  end.

(** Nearest integer to [num / den], ties to even, for [0 < den]. *)
Definition round_half_even (num den : Z) : Z :=
  let q := num / den in
  let r := num mod den in
  match 2 * r ?= den with
  | Lt => q
  | Gt => q + 1
  | Eq => if Z.even q then q else q + 1
  end.

Definition two_digits (n : Z) : string :=
  String (PyStr.digit_char (n / 10)) (String (PyStr.digit_char (n mod 10)) EmptyString).

(** [f"{x:.2f}"]: the exact binary value rounded to hundredths. *)
Definition format_2f (x : float) : string :=
  match Prim2SF x with
  | S754_nan => "nan"
  | S754_infinity s => if s then "-inf" else "inf"
  | S754_zero s => if s then "-0.00" else "0.00"
  | S754_finite s m e =>
      let cents :=
        if 0 <=? e then Z.pos m * 100 * 2 ^ e
        else round_half_even (Z.pos m * 100) (2 ^ (- e)) in
      (if s then "-" else "")
        +:+ PyStr.of_Z (cents / 100) +:+ "." +:+ two_digits (cents mod 100)
  end.

End PyFloat.

(** Exceptions propagate through sequenced statements. *)
#[global] Instance exn_ret : MRet (sum exn) := fun A x => inr x.
#[global] Instance exn_bind : MBind (sum exn) := fun A B k m =>
  match m with
  | inl e => inl e
  | inr x => k x
  end.

(* ===================================================================== *)
(** * The amount pattern of [re.findall] *)
(* ===================================================================== *)

Module Re.
Import PyStr.

(** [(?:,\d{3})*] at the head of [s]: characters taken by the greedy
    repetition. *)
Fixpoint comma_groups (s : string) : nat :=
  match s with
  | String ","%char (String a (String b (String c rest))) =>
      if is_digit a && is_digit b && is_digit c
      then (4 + comma_groups rest)%nat
      else 0%nat
  | _ => 0%nat
  end.

(** [(?:\.\d+)?] at the head of [s] *)
Definition fraction (s : string) : nat :=
  match s with
  | String "."%char r =>
      let k := span_digits r in
      if (k =? 0)%nat then 0%nat else S k
  | _ => 0%nat
  end.

(** Length of the match of [\d+(?:,\d{3})*(?:\.\d+)?] at the head of [s];
    0 when the pattern does not match there. Every part after [\d+] may
    be empty, so the greedy choices are never undone. *)
Definition match_amount (s : string) : nat :=
  let d := span_digits s in
  if (d =? 0)%nat then 0%nat
  else
    let s1 := drop d s in
    let g := comma_groups s1 in
    (d + g + fraction (drop g s1))%nat.

(** The scan of [findall]: try the pattern at each position from the
    left; after a match, resume behind it. [skip] counts the characters
    of the current match still to be passed. *)
Fixpoint findall_from (skip : nat) (s : string) : list string :=
  match s with
  | EmptyString => []
  | String _ s' =>
      match skip with
      | S k => findall_from k s'
      | O =>
          match match_amount s with
          | O => findall_from 0 s'
          | S n => take (S n) s :: findall_from n s'
          end
      end
  end.

(** [re.findall(r'\d+(?:,\d{3})*(?:\.\d+)?', s)] *)
Definition findall (s : string) : list string := findall_from 0 s.

End Re.

(* ===================================================================== *)
(** * Schemas ([app/schemas/financial.py]) *)
(* ===================================================================== *)

(** The values an extracted-data mapping holds for the fields of the three
    payloads: JSON null, numbers and strings. *)
Inductive pyval : Type :=
| VNone
| VInt (n : Z)
| VFloat (x : float)
| VStr (s : string).

Inductive InputType : Type :=
| FINANCIAL_COMMITMENT
| BALANCE_UPDATE
| QUESTION.

#[global] Instance InputType_eq_dec : EqDecision InputType.
Proof. solve_decision. Defined.

Record ClassifiedInput : Type := {
  input_type : InputType;
  confidence : float;
  extracted_data : gmap string pyval
}.

(* ===================================================================== *)
(** * [GeminiService] ([app/services/gemini_service.py]) *)
(* ===================================================================== *)

(** One entry of the [upcoming_commitments] list handed to
    [generate_advice]: the dictionary with the keys [description], [amount]
    and [date] built by the question handler from a table row, each value
    being the column's value or [None]. *)
Record CommitmentItem : Type := {
  item_description : option string;
  item_amount : option float;
  item_date : option string
}.

Module GeminiService.

Definition balance_words : list string := ["balance"; "have"; "now"; "current"].
Definition question_words : list string :=
  ["can i"; "should i"; "afford"; "?"; "how much"].

(** [_extract_amount]: the last number of the text with its commas
    removed, or [0.0]. *)
Definition _extract_amount (text : string) : exn + float :=
  let numbers := Re.findall (PyStr.remove_char ","%char text) in
  match last numbers with
  | Some n => PyFloat.float_of_str n
  | None => inr 0%float
  end.

(** [amount if amount else 0] *)
Definition amount_or_0 (amount : float) : pyval :=
  if PyFloat.truthy amount then VFloat amount else VInt 0.

(** [_fallback_classification] *)
Definition _fallback_classification (text : string) : exn + ClassifiedInput :=
  let text_lower := PyStr.lower text in
  if PyStr.contains_any balance_words text_lower then
    amount ← _extract_amount text;
    mret {| input_type := BALANCE_UPDATE;
            confidence := 0.7;
            extracted_data := {[ "balance" := amount_or_0 amount ]} |}
  else if PyStr.contains_any question_words text_lower then
    amount ← _extract_amount text;
    mret {| input_type := QUESTION;
            confidence := 0.7;
            extracted_data :=
              <[ "question" := VStr text ]>
                {[ "target_amount" := VFloat amount ]} |}
  else
    amount ← _extract_amount text;
    mret {| input_type := FINANCIAL_COMMITMENT;
            confidence := 0.6;
            extracted_data :=
              <[ "description" := VStr text ]>
                (<[ "amount" := amount_or_0 amount ]>
                   {[ "date" := VNone ]}) |}.

(** [classify_and_extract]. [primary] is what the [try] block yields:
    [Some c] when the backend answered with JSON that validates as the
    classified input [c], [None] when anything in the block raised. *)
Definition classify_and_extract (primary : option ClassifiedInput)
    (text : string) : exn + ClassifiedInput :=
  match primary with
  | Some c => inr c
  | None => _fallback_classification text
  end.

(** [sum(c.get('amount', 0) for c in upcoming_commitments)]. The key is
    always present, so the default of [get] never applies; adding [None]
    raises. The sum starts from the integer 0, which adds and prints as
    the float [0.0] does. *)
Fixpoint sum_amounts (acc : float) (cs : list CommitmentItem) : exn + float :=
  match cs with
  | [] => inr acc
  | c :: cs' =>
      match item_amount c with
      | Some a => sum_amounts (acc + a)%float cs'
      | None => inl TypeError
      end
  end.

(** The two templates of the [except] branch. *)
Definition advice_wait (current_balance total available target : float) : string :=
  "Based on your balance of $" +:+ PyFloat.format_2f current_balance
  +:+ " and upcoming commitments of $" +:+ PyFloat.format_2f total
  +:+ ", you have $" +:+ PyFloat.format_2f available
  +:+ " available. The $" +:+ PyFloat.format_2f target
  +:+ " purchase exceeds your available funds. Consider waiting until after your commitments are fulfilled.".

Definition advice_buffer (available : float) : string :=
  "You have $" +:+ PyFloat.format_2f available
  +:+ " available after upcoming commitments. This purchase appears affordable, but ensure you maintain an emergency buffer.".

(** The [except] branch of [generate_advice]; the test is
    [if target_amount and target_amount > available_funds]. *)
Definition fallback_advice (current_balance total : float)
    (target_amount : option float) : string :=
  let available_funds := (current_balance - total)%float in
  match target_amount with
  | Some t =>
      if PyFloat.truthy t && PrimFloat.ltb available_funds t
      then advice_wait current_balance total available_funds t
      else advice_buffer available_funds
  | None => advice_buffer available_funds
  end.

(** [generate_advice]. [backend] is the text the generative backend
    returned, stripped, or [None] when the call raised. The prompt only
    reaches the backend and is not kept. *)
Definition generate_advice (backend : option string) (question : string)
    (current_balance : float) (upcoming_commitments : list CommitmentItem)
    (target_amount : option float) : exn + string :=
  total_commitments ← sum_amounts 0%float upcoming_commitments;
  match backend with
  | Some text => mret text
  | None => mret (fallback_advice current_balance total_commitments target_amount)
  end.

End GeminiService.

(* ===================================================================== *)
(** * Validation of the payloads (pydantic models) *)
(* ===================================================================== *)

(** A [datetime] is a point on the time line, in microseconds. *)
Definition datetime : Type := Z.

(** Library behaviour the pipeline relies on without deciding it:
    - [lax_float s]: pydantic's reading of a string given for a float field
      ([None]: refused);
    - [lax_datetime v]: pydantic's reading of a value other than [None]
      given for a datetime field ([None]: refused);
    - [isoformat d]: [datetime.isoformat]. *)
Class Lib : Type := {
  lax_float : string → option float;
  lax_datetime : pyval → option datetime;
  isoformat : datetime → string
}.

Record CommitmentData : Type := {
  cd_description : string;
  cd_amount : float;
  cd_date : option datetime
}.

Record BalanceData : Type := { bd_balance : float }.

Record QuestionData : Type := {
  qd_question : string;
  qd_target_amount : option float
}.

Module Schema.
Section WithLib.
Context `{Lib}.

Definition of_option {A} (model : string) (o : option A) : exn + A :=
  match o with
  | Some x => inr x
  | None => inl (ValidationError model)
  end.

(** A field of type [str]: only a string is taken (numbers are not
    turned into strings), and no length is asked for. *)
Definition str_field (v : option pyval) : option string :=
  match v with
  | Some (VStr s) => Some s
  | _ => None
  end.

(** A field of type [float]: a float as it is, an integer converted, a
    string as the library reads it; [None] and a missing key are
    refused. *)
Definition float_field (v : option pyval) : option float :=
  match v with
  | Some (VFloat x) => Some x
  | Some (VInt n) => PyFloat.of_Z n
  | Some (VStr s) => lax_float s
  | Some VNone | None => None
  end.

(** A field of type [Optional[float] = None] *)
Definition optional_float_field (v : option pyval) : option (option float) :=
  match v with
  | None | Some VNone => Some None
  | _ => Some <$> float_field v
  end.

(** A field of type [Optional[datetime] = None] *)
Definition optional_datetime_field (v : option pyval) : option (option datetime) :=
  match v with
  | None | Some VNone => Some None
  | Some w => Some <$> lax_datetime w
  end.

(** [Field(..., gt=0)] *)
Definition gt0 (x : float) : option float :=
  if PrimFloat.ltb 0 x then Some x else None.

(** [Field(..., ge=0)] *)
Definition ge0 (x : float) : option float :=
  if PrimFloat.leb 0 x then Some x else None.

(** The model [CommitmentData] built from the mapping [data] *)
Definition validate_commitment (data : gmap string pyval) : exn + CommitmentData :=
  of_option "CommitmentData"
    (description ← str_field (data !! "description");
     amount ← float_field (data !! "amount") ≫= gt0;
     date ← optional_datetime_field (data !! "date");
     Some {| cd_description := description; cd_amount := amount; cd_date := date |}).

(** The model [BalanceData] built from the mapping [data] *)
Definition validate_balance (data : gmap string pyval) : exn + BalanceData :=
  of_option "BalanceData"
    (balance ← float_field (data !! "balance") ≫= ge0;
     Some {| bd_balance := balance |}).

(** The model [QuestionData] built from the mapping [data] *)
Definition validate_question (data : gmap string pyval) : exn + QuestionData :=
  of_option "QuestionData"
    (question ← str_field (data !! "question");
     target_amount ← optional_float_field (data !! "target_amount");
     Some {| qd_question := question; qd_target_amount := target_amount |}).

End WithLib.
End Schema.

Record ProcessedResult : Type := {
  success : bool;
  message : string;
  data : option (gmap string pyval);
  advice : option string
}.

(* ===================================================================== *)
(** * Tables ([app/models/financial.py]) and the session *)
(* ===================================================================== *)

(** A row of [financial_records]. The column [created_at] is filled by the
    database at insertion; rows are kept in insertion order, which is the
    order of [created_at]. *)
Module FinancialRecord.
Record t : Type := {
  id : Z;
  user_id : string;
  input_type : InputType;
  description : option string;
  amount : option float;
  commitment_date : option datetime;
  balance : option float;
  question_text : option string;
  raw_input : string;
  vector_id : option string
}.

Definition with_vector_id (v : string) (r : t) : t :=
  {| id := id r; user_id := user_id r; input_type := input_type r;
     description := description r; amount := amount r;
     commitment_date := commitment_date r; balance := balance r;
     question_text := question_text r; raw_input := raw_input r;
     vector_id := Some v |}.
End FinancialRecord.

(** A row of [user_balances], keyed by its user id. *)
Module UserBalance.
Record t : Type := {
  current_balance : float;
  last_updated : datetime
}.
End UserBalance.

Record Tables : Type := {
  financial_records : list FinancialRecord.t;
  user_balances : gmap string UserBalance.t
}.

(** The database: the committed tables and the id sequence of
    [financial_records], which a rolled-back insertion still advances. *)
Record Db : Type := {
  tables : Tables;
  id_seq : Z
}.

Definition empty_db : Db :=
  {| tables := {| financial_records := []; user_balances := ∅ |}; id_seq := 0 |}.

(** A session: the database and the tables as the open transaction sees
    them. *)
Record Session : Type := {
  db : Db;
  work : Tables
}.

(** What the world outside the process decides during one request. *)
Record World : Type := {
  now : datetime;                         (* [datetime.utcnow()] *)
  primary : option ClassifiedInput;       (* the classifier's [try] block *)
  commit_ok : nat → bool;                 (* does the n-th [db.commit()] of the request go through *)
  index_upsert_ok : bool;                 (* do the embedding and the index upsert go through *)
  index_matches : option (list string);   (* ids the index query returns, [None] when it raises *)
  advice_backend : option string          (* the advice the generative backend returns *)
}.

(** Statements of a handler: they read and change the session and may
    raise. *)
Definition M (A : Type) : Type := Session → (exn + A) * Session.

#[global] Instance M_ret : MRet M := fun A x s => (inr x, s).
#[global] Instance M_bind : MBind M := fun A B k m s =>
  match m s with
  | (inl e, s') => (inl e, s')
  | (inr x, s') => k x s'
  end.

Module Sql.

(** A computation that touches no table. *)
Definition lift {A} (r : exn + A) : M A := fun s => (r, s).

(** [try: body except Exception: handler] *)
Definition try_except {A} (body : M A) (handler : exn → M A) : M A := fun s =>
  match body s with
  | (inl e, s') => handler e s'
  | (inr x, s') => (inr x, s')
  end.

(** [db.add(record)] for a new row of [financial_records]: the row takes
    the next value of the sequence. *)
Definition add_record (mk : Z → FinancialRecord.t) : M FinancialRecord.t := fun s =>
  let i := id_seq (db s) + 1 in
  let r := mk i in
  (inr r,
   {| db := {| tables := tables (db s); id_seq := i |};
      work := {| financial_records := financial_records (work s) ++ [r];
                 user_balances := user_balances (work s) |} |}).

(** [db.query(UserBalance).filter(UserBalance.user_id == user_id).first()] *)
Definition first_balance (user_id : string) : M (option UserBalance.t) := fun s =>
  (inr (user_balances (work s) !! user_id), s).

(** A new or changed row of [user_balances] in the open transaction. *)
Definition put_balance (user_id : string) (b : UserBalance.t) : M unit := fun s =>
  (inr tt,
   {| db := db s;
      work := {| financial_records := financial_records (work s);
                 user_balances := <[ user_id := b ]> (user_balances (work s)) |} |}).

(** [record.vector_id = vector_id] on the row with the given id *)
Definition set_vector_id (i : Z) (v : string) : M unit := fun s =>
  (inr tt,
   {| db := db s;
      work := {| financial_records :=
                   (fun r => if FinancialRecord.id r =? i
                             then FinancialRecord.with_vector_id v r else r)
                     <$> financial_records (work s);
                 user_balances := user_balances (work s) |} |}).

(** [db.commit()]: the whole transaction becomes durable, or none of it
    does and the call raises. *)
Definition commit (ok : bool) : M unit := fun s =>
  if ok
  then (inr tt, {| db := {| tables := work s; id_seq := id_seq (db s) |}; work := work s |})
  else (inl SQLAlchemyError, {| db := db s; work := tables (db s) |}).

Definition date_leb (a b : FinancialRecord.t) : bool :=
  match FinancialRecord.commitment_date a, FinancialRecord.commitment_date b with
  | Some x, Some y => x <=? y
  | Some _, None => true
  | None, Some _ => false
  | None, None => true
  end.

Fixpoint insert_by_date (x : FinancialRecord.t) (l : list FinancialRecord.t) :=
  match l with
  | [] => [x]
  | y :: l' => if date_leb x y then x :: l else y :: insert_by_date x l'
  end.

(** [order_by(FinancialRecord.commitment_date)]; rows of equal date stay
    in insertion order. *)
Definition order_by_date (l : list FinancialRecord.t) : list FinancialRecord.t :=
  foldr insert_by_date [] l.

(** The [filter] of the upcoming-commitments query. A comparison with
    NULL is not true, so a row without a date is dropped. *)
Definition is_upcoming (user_id : string) (t0 : datetime) (r : FinancialRecord.t) : bool :=
  bool_decide (FinancialRecord.user_id r = user_id)
  && bool_decide (FinancialRecord.input_type r = FINANCIAL_COMMITMENT)
  && match FinancialRecord.commitment_date r with
     | Some d => t0 <=? d
     | None => false
     end.

Definition upcoming_of (user_id : string) (t0 : datetime)
    (rows : list FinancialRecord.t) : list FinancialRecord.t :=
  take 10 (order_by_date (List.filter (is_upcoming user_id t0) rows)).

Definition upcoming (user_id : string) (t0 : datetime) : M (list FinancialRecord.t) := fun s =>
  (inr (upcoming_of user_id t0 (financial_records (work s))), s).

(** A request runs in a session of its own, closed when the request
    ends: what was not committed is dropped. *)
Definition run {A} (m : M A) (d : Db) : (exn + A) * Db :=
  let '(r, s) := m {| db := d; work := tables d |} in (r, db s).

End Sql.

(* ===================================================================== *)
(** * [PineconeService] ([app/services/pinecone_service.py]) *)
(* ===================================================================== *)

Module PineconeService.

(** [store_commitment]: the key [user_id_commitmentId] once the embedding
    is computed and the upsert done; any failure of those raises. *)
Definition store_commitment (ok : bool) (user_id commitment_id : string) : exn + string :=
  if ok then inr (user_id +:+ "_" +:+ commitment_id) else inl PineconeError.

(** [query_relevant_commitments] *)
Definition query_relevant_commitments (matches : option (list string)) : exn + list string :=
  match matches with
  | Some l => inr l
  | None => inl PineconeError
  end.

End PineconeService.

(* ===================================================================== *)
(** * [FinancialService] ([app/services/financial_service.py]) *)
(* ===================================================================== *)

Module FinancialService.
Import Sql.
Section WithLib.
Context `{Lib}.

Definition date_value (d : option datetime) : pyval :=
  match d with
  | Some t => VStr (isoformat t)
  | None => VNone
  end.

(** [_handle_commitment] *)
Definition _handle_commitment (w : World) (user_id raw_input : string)
    (data : gmap string pyval) : M ProcessedResult :=
  commitment_data ← lift (Schema.validate_commitment data);
  record ← add_record (fun i =>
    {| FinancialRecord.id := i;
       FinancialRecord.user_id := user_id;
       FinancialRecord.input_type := FINANCIAL_COMMITMENT;
       FinancialRecord.description := Some (cd_description commitment_data);
       FinancialRecord.amount := Some (cd_amount commitment_data);
       FinancialRecord.commitment_date := cd_date commitment_data;
       FinancialRecord.balance := None;
       FinancialRecord.question_text := None;
       FinancialRecord.raw_input := raw_input;
       FinancialRecord.vector_id := None |});
  _ ← commit (commit_ok w 0);
  _ ← try_except
        (vector_id ← lift (PineconeService.store_commitment (index_upsert_ok w)
                             user_id (PyStr.of_Z (FinancialRecord.id record)));
         _ ← set_vector_id (FinancialRecord.id record) vector_id;
         commit (commit_ok w 1))
        (fun _ => mret tt);
  mret {| success := true;
          message := "Added commitment: " +:+ cd_description commitment_data
                     +:+ " ($" +:+ PyFloat.format_2f (cd_amount commitment_data) +:+ ")";
          data := Some (<[ "id" := VInt (FinancialRecord.id record) ]>
                       (<[ "description" := VStr (cd_description commitment_data) ]>
                       (<[ "amount" := VFloat (cd_amount commitment_data) ]>
                       {[ "date" := date_value (cd_date commitment_data) ]})));
          advice := None |}.

(** [_handle_balance_update] *)
Definition _handle_balance_update (w : World) (user_id raw_input : string)
    (data : gmap string pyval) : M ProcessedResult :=
  balance_data ← lift (Schema.validate_balance data);
  record ← add_record (fun i =>
    {| FinancialRecord.id := i;
       FinancialRecord.user_id := user_id;
       FinancialRecord.input_type := BALANCE_UPDATE;
       FinancialRecord.description := None;
       FinancialRecord.amount := None;
       FinancialRecord.commitment_date := None;
       FinancialRecord.balance := Some (bd_balance balance_data);
       FinancialRecord.question_text := None;
       FinancialRecord.raw_input := raw_input;
       FinancialRecord.vector_id := None |});
  user_balance ← first_balance user_id;
  _ ← match user_balance with
      | Some _ =>
          (* the row exists: both columns are assigned *)
          put_balance user_id
            {| UserBalance.current_balance := bd_balance balance_data;
               UserBalance.last_updated := now w |}
      | None =>
          (* a new row; [last_updated] takes the server's default, the
             current time *)
          put_balance user_id
            {| UserBalance.current_balance := bd_balance balance_data;
               UserBalance.last_updated := now w |}
      end;
  _ ← commit (commit_ok w 0);
  mret {| success := true;
          message := "Balance updated to $" +:+ PyFloat.format_2f (bd_balance balance_data);
          data := Some (<[ "id" := VInt (FinancialRecord.id record) ]>
                       {[ "balance" := VFloat (bd_balance balance_data) ]});
          advice := None |}.

Definition item_of (u : FinancialRecord.t) : CommitmentItem :=
  {| item_description := FinancialRecord.description u;
     item_amount := FinancialRecord.amount u;
     item_date := isoformat <$> FinancialRecord.commitment_date u |}.

(** [user_balance.current_balance if user_balance else 0.0] *)
Definition balance_or_0 (user_balance : option UserBalance.t) : float :=
  match user_balance with
  | Some b => UserBalance.current_balance b
  | None => 0%float
  end.

(** [_handle_question] *)
Definition _handle_question (w : World) (user_id raw_input : string)
    (data : gmap string pyval) : M ProcessedResult :=
  question_data ← lift (Schema.validate_question data);
  user_balance ← first_balance user_id;
  let current_balance := balance_or_0 user_balance in
  upcoming ← upcoming user_id (now w);
  let upcoming_list := item_of <$> upcoming in
  relevant_commitments ←
    try_except
      (lift (PineconeService.query_relevant_commitments (index_matches w)))
      (fun _ => mret []);
  advice ← lift (GeminiService.generate_advice (advice_backend w)
                   (qd_question question_data) current_balance upcoming_list
                   (qd_target_amount question_data));
  record ← add_record (fun i =>
    {| FinancialRecord.id := i;
       FinancialRecord.user_id := user_id;
       FinancialRecord.input_type := QUESTION;
       FinancialRecord.description := None;
       FinancialRecord.amount := None;
       FinancialRecord.commitment_date := None;
       FinancialRecord.balance := None;
       FinancialRecord.question_text := Some (qd_question question_data);
       FinancialRecord.raw_input := raw_input;
       FinancialRecord.vector_id := None |});
  _ ← commit (commit_ok w 0);
  mret {| success := true;
          message := "Question answered";
          data := Some (<[ "id" := VInt (FinancialRecord.id record) ]>
                       (<[ "question" := VStr (qd_question question_data) ]>
                       (<[ "current_balance" := VFloat current_balance ]>
                       (<[ "upcoming_commitments_count" :=
                             VInt (Z.of_nat (length upcoming_list)) ]>
                       {[ "relevant_commitments_from_vector_db" :=
                             VInt (Z.of_nat (length relevant_commitments)) ]}))));
          advice := Some advice |}.

(** [process_input]: classify, then route on the kind. The three kinds
    are all there is, so the closing "Unable to classify" result is
    never built. *)
Definition process_input (w : World) (user_id text : string) : M ProcessedResult :=
  classification ← lift (GeminiService.classify_and_extract (primary w) text);
  match input_type classification with
  | FINANCIAL_COMMITMENT =>
      _handle_commitment w user_id text (extracted_data classification)
  | BALANCE_UPDATE =>
      _handle_balance_update w user_id text (extracted_data classification)
  | QUESTION =>
      _handle_question w user_id text (extracted_data classification)
  end.

(** [h.input_type.value] *)
Definition input_type_value (t : InputType) : string :=
  match t with
  | FINANCIAL_COMMITMENT => "FINANCIAL_COMMITMENT"
  | BALANCE_UPDATE => "BALANCE_UPDATE"
  | QUESTION => "QUESTION"
  end.

(** The user's commitments, newest first, at most ten. *)
Definition recent_commitments (user_id : string) (rows : list FinancialRecord.t)
    : list FinancialRecord.t :=
  take 10
    (reverse (List.filter
                (fun r => bool_decide (FinancialRecord.user_id r = user_id)
                          && bool_decide (FinancialRecord.input_type r = FINANCIAL_COMMITMENT))
                rows)).

(** The user's events, newest first, at most twenty. *)
Definition recent_history (user_id : string) (rows : list FinancialRecord.t)
    : list FinancialRecord.t :=
  take 20
    (reverse (List.filter (fun r => bool_decide (FinancialRecord.user_id r = user_id)) rows)).

(** The amounts kept by [c.amount for c in commitments if c.amount]: an
    absent amount and a zero are skipped. *)
Definition truthy_amounts (cs : list FinancialRecord.t) : list float :=
  omap (fun c => match FinancialRecord.amount c with
                 | Some a => if PyFloat.truthy a then Some a else None
                 | None => None
                 end) cs.

(** [sum(...)] of floats: the integer 0 when there is nothing to add. *)
Definition py_sum (xs : list float) : pyval :=
  match xs with
  | [] => VInt 0
  | _ => VFloat (fold_left PrimFloat.add xs 0%float)
  end.

Record Summary : Type := {
  summary_current_balance : float;
  summary_total_commitments : pyval;
  summary_commitments : list CommitmentItem;
  (* each entry: the kind and the raw input; its [created_at] is the
     database's time of insertion, which the rows here do not carry *)
  summary_recent_history : list (string * string)
}.

(** [get_user_summary] *)
Definition get_user_summary (d : Db) (user_id : string) : Summary :=
  let user_balance := user_balances (tables d) !! user_id in
  let commitments := recent_commitments user_id (financial_records (tables d)) in
  let history := recent_history user_id (financial_records (tables d)) in
  {| summary_current_balance := balance_or_0 user_balance;
     summary_total_commitments := py_sum (truthy_amounts commitments);
     summary_commitments := item_of <$> commitments;
     summary_recent_history :=
       (fun h => (input_type_value (FinancialRecord.input_type h),
                  FinancialRecord.raw_input h)) <$> history |}.

End WithLib.
End FinancialService.

(* ===================================================================== *)
(** * The HTTP surface ([app/api/financial.py]) *)
(* ===================================================================== *)

Inductive Response : Type :=
| Ok200 (r : ProcessedResult)
| Error500.                 (* [HTTPException(status_code=500, ...)] *)

Module Api.
Section WithLib.
Context `{Lib}.

(** [POST /api/v1/finance/process]: every exception of the pipeline
    becomes a 500. *)
Definition process_financial_input (w : World) (user_id text : string)
    (d : Db) : Response * Db :=
  match Sql.run (FinancialService.process_input w user_id text) d with
  | (inr r, d') => (Ok200 r, d')
  | (inl _, d') => (Error500, d')
  end.

End WithLib.

(** [GET /api/v1/finance/history/{user_id}]: the user's rows, newest
    first, at most [limit] of them. *)
Definition get_user_history (user_id : string) (limit : nat) (d : Db)
    : list FinancialRecord.t :=
  take limit
    (reverse (List.filter (fun r => bool_decide (FinancialRecord.user_id r = user_id))
                          (financial_records (tables d)))).

End Api.

(* ===================================================================== *)
(** * Notions used by the properties *)
(* ===================================================================== *)

(** A string is an unsigned decimal literal: digits, then optionally a
    point followed by digits. *)
Definition is_decimal (s : string) : bool :=
  let i := PyStr.span_digits s in
  negb (i =? 0)%nat
  && match PyStr.drop i s with
     | EmptyString => true
     | String "."%char fr => PyStr.all_digits fr && negb (String.length fr =? 0)%nat
     | _ => false
     end.

Fixpoint has_char (c : ascii) (s : string) : bool :=
  match s with
  | EmptyString => false
  | String d s' => Ascii.eqb d c || has_char c s'
  end.

(** A commitment entry as the advice generator receives it, for a row that
    has an amount. *)
Definition item_with_amount (a : float) : CommitmentItem :=
  {| item_description := None; item_amount := Some a; item_date := None |}.

(** The balance the pipeline reads for a user, as the question handler
    does. *)
Definition read_balance (d : Db) (user_id : string) : float :=
  FinancialService.balance_or_0 (user_balances (tables d) !! user_id).

Definition is_balance_update_of (user_id : string) (r : FinancialRecord.t) : bool :=
  bool_decide (FinancialRecord.user_id r = user_id)
  && bool_decide (FinancialRecord.input_type r = BALANCE_UPDATE).

(** The most recent balance-update event of a user, if any. *)
Definition last_balance_update (user_id : string) (rows : list FinancialRecord.t)
    : option FinancialRecord.t :=
  last (List.filter (is_balance_update_of user_id) rows).

(** The balance row of every user agrees with the user's latest
    balance-update event. *)
Definition balance_invariant (d : Db) : Prop :=
  ∀ user_id : string,
    match last_balance_update user_id (financial_records (tables d)) with
    | Some r => FinancialRecord.balance r = Some (read_balance d user_id)
    | None => read_balance d user_id = 0%float
    end.

(** The balance-update event with id [i]. *)
Definition balance_event (i : Z) (user_id raw_input : string) (x : float)
    : FinancialRecord.t :=
  {| FinancialRecord.id := i;
     FinancialRecord.user_id := user_id;
     FinancialRecord.input_type := BALANCE_UPDATE;
     FinancialRecord.description := None;
     FinancialRecord.amount := None;
     FinancialRecord.commitment_date := None;
     FinancialRecord.balance := Some x;
     FinancialRecord.question_text := None;
     FinancialRecord.raw_input := raw_input;
     FinancialRecord.vector_id := None |}.

(** The commitment event with id [i], not mirrored in the index. *)
Definition commitment_event (i : Z) (user_id raw_input : string) (c : CommitmentData)
    : FinancialRecord.t :=
  {| FinancialRecord.id := i;
     FinancialRecord.user_id := user_id;
     FinancialRecord.input_type := FINANCIAL_COMMITMENT;
     FinancialRecord.description := Some (cd_description c);
     FinancialRecord.amount := Some (cd_amount c);
     FinancialRecord.commitment_date := cd_date c;
     FinancialRecord.balance := None;
     FinancialRecord.question_text := None;
     FinancialRecord.raw_input := raw_input;
     FinancialRecord.vector_id := None |}.

(** Every column of an event but the back-reference to the index. *)
Definition ledger_fields (r : FinancialRecord.t) :=
  (FinancialRecord.id r, FinancialRecord.user_id r, FinancialRecord.input_type r,
   FinancialRecord.description r, FinancialRecord.amount r,
   FinancialRecord.commitment_date r, FinancialRecord.balance r,
   FinancialRecord.question_text r, FinancialRecord.raw_input r).

(** What a request may do to the committed tables: nothing; append an event
    that is not a balance update, possibly attaching index keys; or append
    a balance update and write the user's balance row with its amount. *)
Inductive request_effect (d d' : Db) : Prop :=
| effect_nothing :
    tables d' = tables d →
    request_effect d d'
| effect_event (f : FinancialRecord.t → FinancialRecord.t) (r : FinancialRecord.t) :
    (∀ x, ledger_fields (f x) = ledger_fields x) →
    FinancialRecord.input_type r ≠ BALANCE_UPDATE →
    financial_records (tables d') = f <$> (financial_records (tables d) ++ [r]) →
    user_balances (tables d') = user_balances (tables d) →
    request_effect d d'
| effect_balance (user_id : string) (r : FinancialRecord.t) (b : UserBalance.t) :
    FinancialRecord.user_id r = user_id →
    FinancialRecord.input_type r = BALANCE_UPDATE →
    FinancialRecord.balance r = Some (UserBalance.current_balance b) →
    financial_records (tables d') = financial_records (tables d) ++ [r] →
    user_balances (tables d') = <[ user_id := b ]> (user_balances (tables d)) →
    request_effect d d'.

(** A request to [POST /process], with what the world does during it. *)
Record Request : Type := {
  req_world : World;
  req_user : string;
  req_text : string
}.

Definition serve `{Lib} (d : Db) (q : Request) : Db :=
  snd (Api.process_financial_input (req_world q) (req_user q) (req_text q) d).

Definition serve_all `{Lib} (d : Db) (qs : list Request) : Db :=
  fold_left serve qs d.

(** The payload schema of the commitment handler as the specification words
    it: a non-empty description, an amount that is a number above zero, an
    optional timestamp. *)
Definition spec_commitment_payload `{Lib} (data : gmap string pyval) : Prop :=
  (∃ s, data !! "description" = Some (VStr s) ∧ s ≠ EmptyString)
  ∧ (∃ x, Schema.float_field (data !! "amount") = Some x ∧ PrimFloat.ltb 0 x = true)
  ∧ is_Some (Schema.optional_datetime_field (data !! "date")).

(** ** Instances for the examples *)

(** A library for the examples: numeric strings are read as [float()]
    reads decimal literals, an integer is a timestamp, and a date prints as
    its number. *)
Definition plain_lib : Lib :=
  {| lax_float := fun s =>
       match PyFloat.float_of_str s with inr x => Some x | inl _ => None end;
     lax_datetime := fun v => match v with VInt n => Some n | _ => None end;
     isoformat := PyStr.of_Z |}.

(** A world where storage works and every external service is down. *)
Definition offline_world : World :=
  {| now := 1000;
     primary := None;
     commit_ok := fun _ => true;
     index_upsert_ok := false;
     index_matches := None;
     advice_backend := None |}.

(** The world [w] with the classifier answering [c]. *)
Definition with_primary (c : ClassifiedInput) (w : World) : World :=
  {| now := now w;
     primary := Some c;
     commit_ok := commit_ok w;
     index_upsert_ok := index_upsert_ok w;
     index_matches := index_matches w;
     advice_backend := advice_backend w |}.

Definition classified_world (c : ClassifiedInput) : World :=
  with_primary c offline_world.

Definition balance_payload (x : float) : ClassifiedInput :=
  {| input_type := BALANCE_UPDATE;
     confidence := 0.9;
     extracted_data := {[ "balance" := VFloat x ]} |}.

Definition balance_request (user_id text : string) (x : float) : Request :=
  {| req_world := classified_world (balance_payload x);
     req_user := user_id;
     req_text := text |}.

Definition is_balance_update (r : FinancialRecord.t) : bool :=
  bool_decide (FinancialRecord.input_type r = BALANCE_UPDATE).

(** ** Notions for the properties of the whole pipeline *)

(** The index key set on a mirrored event. *)
Definition mirrored (i : Z) (v : string) (r : FinancialRecord.t) : FinancialRecord.t :=
  if FinancialRecord.id r =? i then FinancialRecord.with_vector_id v r else r.

(** The question event with id [i]. *)
Definition question_event (i : Z) (user_id raw_input question : string)
    : FinancialRecord.t :=
  {| FinancialRecord.id := i;
     FinancialRecord.user_id := user_id;
     FinancialRecord.input_type := QUESTION;
     FinancialRecord.description := None;
     FinancialRecord.amount := None;
     FinancialRecord.commitment_date := None;
     FinancialRecord.balance := None;
     FinancialRecord.question_text := Some question;
     FinancialRecord.raw_input := raw_input;
     FinancialRecord.vector_id := None |}.

(** An event carries the columns of its kind and no others: a commitment a
    description and an amount above zero, a balance update a balance that
    is not negative, a question its text. *)
Definition event_ok (r : FinancialRecord.t) : bool :=
  match FinancialRecord.input_type r with
  | FINANCIAL_COMMITMENT =>
      bool_decide (is_Some (FinancialRecord.description r))
      && match FinancialRecord.amount r with
         | Some a => PrimFloat.ltb 0 a
         | None => false
         end
      && bool_decide (FinancialRecord.balance r = None)
      && bool_decide (FinancialRecord.question_text r = None)
  | BALANCE_UPDATE =>
      match FinancialRecord.balance r with
      | Some b => PrimFloat.leb 0 b
      | None => false
      end
      && bool_decide (FinancialRecord.description r = None)
      && bool_decide (FinancialRecord.amount r = None)
      && bool_decide (FinancialRecord.commitment_date r = None)
      && bool_decide (FinancialRecord.question_text r = None)
  | QUESTION =>
      bool_decide (is_Some (FinancialRecord.question_text r))
      && bool_decide (FinancialRecord.description r = None)
      && bool_decide (FinancialRecord.amount r = None)
      && bool_decide (FinancialRecord.commitment_date r = None)
      && bool_decide (FinancialRecord.balance r = None)
  end.

Definition events_ok (d : Db) : Prop :=
  Forall (fun r => event_ok r = true) (financial_records (tables d)).

Definition balances_ok (d : Db) : Prop :=
  ∀ (user_id : string) (b : UserBalance.t),
    user_balances (tables d) !! user_id = Some b →
    PrimFloat.leb 0 (UserBalance.current_balance b) = true.

(** Ids grow along the table and stay within the sequence. *)
Definition ids_ok (d : Db) : Prop :=
  StronglySorted Z.lt (FinancialRecord.id <$> financial_records (tables d))
  ∧ Forall (fun r => 0 < FinancialRecord.id r ≤ id_seq d) (financial_records (tables d))
  ∧ 0 ≤ id_seq d.

(** What one request of [user_id] with text [text] does to the database. *)
Inductive request_step (user_id text : string) (d d' : Db) : Prop :=
| step_nothing :
    tables d' = tables d →
    id_seq d ≤ id_seq d' →
    request_step user_id text d d'
| step_event (r : FinancialRecord.t) (f : FinancialRecord.t → FinancialRecord.t) :
    FinancialRecord.id r = id_seq d + 1 →
    FinancialRecord.user_id r = user_id →
    FinancialRecord.raw_input r = text →
    FinancialRecord.input_type r ≠ BALANCE_UPDATE →
    event_ok r = true →
    (f = (fun x => x) ∨ ∃ v, f = mirrored (id_seq d + 1) v) →
    financial_records (tables d') = f <$> (financial_records (tables d) ++ [r]) →
    user_balances (tables d') = user_balances (tables d) →
    id_seq d' = id_seq d + 1 →
    request_step user_id text d d'
| step_balance (x : float) (t : datetime) :
    PrimFloat.leb 0 x = true →
    financial_records (tables d')
      = financial_records (tables d) ++ [balance_event (id_seq d + 1) user_id text x] →
    user_balances (tables d')
      = <[ user_id := {| UserBalance.current_balance := x;
                         UserBalance.last_updated := t |} ]> (user_balances (tables d)) →
    id_seq d' = id_seq d + 1 →
    request_step user_id text d d'.

(** Dates in ascending order, as [order_by] leaves them. *)
Definition dates_ascending (l : list FinancialRecord.t) : Prop :=
  StronglySorted (fun a b => Sql.date_leb a b = true) l.


Definition commitment_payload (description : string) (x : float) (date : pyval)
    : ClassifiedInput :=
  {| input_type := FINANCIAL_COMMITMENT;
     confidence := 0.9;
     extracted_data :=
       <[ "description" := VStr description ]>
         (<[ "amount" := VFloat x ]> {[ "date" := date ]}) |}.

Definition commitment_request (user_id text description : string) (x : float)
    (date : pyval) : Request :=
  {| req_world := classified_world (commitment_payload description x date);
     req_user := user_id;
     req_text := text |}.


(** Unfolds the statements of a handler down to the session. *)
Ltac run_handler :=
  unfold Sql.run, mbind, M_bind, mret, M_ret, Sql.lift, Sql.try_except,
    Sql.add_record, Sql.first_balance, Sql.put_balance, Sql.set_vector_id,
    Sql.commit, Sql.upcoming; cbn.

(* ===================================================================== *)
(** * Properties of the amount extraction *)
(* ===================================================================== *)

Section StringFacts.

Lemma has_char_remove_char (c : ascii) (s : string) :
  has_char c (PyStr.remove_char c s) = false.
Proof.
  induction s as [|d s IH]; simpl; [reflexivity|].
  destruct (Ascii.eqb d c) eqn:E; simpl; [assumption|].
  rewrite E. assumption.
Qed.

Lemma has_char_drop (c : ascii) (n : nat) (s : string) :
  has_char c s = false → has_char c (PyStr.drop n s) = false.
Proof.
  revert s. induction n as [|n IH]; intros [|d s]; simpl; auto.
  intros Hs. apply orb_false_elim in Hs as [_ Hs]. auto.
Qed.

Lemma comma_is_not_a_digit (d : ascii) :
  Ascii.eqb d ","%char = true → PyStr.is_digit d = false.
Proof. intros E. apply Ascii.eqb_eq in E. subst d. reflexivity. Qed.

Lemma has_digit_remove_comma (s : string) :
  PyStr.has_digit (PyStr.remove_char ","%char s) = PyStr.has_digit s.
Proof.
  induction s as [|d s IH]; simpl; [reflexivity|].
  destruct (Ascii.eqb d ","%char) eqn:E; simpl.
  - rewrite (comma_is_not_a_digit d E). simpl. assumption.
  - rewrite IH. reflexivity.
Qed.

Lemma comma_groups_without_comma (s : string) :
  has_char ","%char s = false → Re.comma_groups s = 0%nat.
Proof.
  destruct s as [|c s]; [reflexivity|]. simpl has_char.
  intros Hs. apply orb_false_elim in Hs as [Hc _].
  destruct c as [[] [] [] [] [] [] [] []]; try reflexivity.
  discriminate Hc.
Qed.

Lemma take_add (n f : nat) (s : string) :
  PyStr.take (n + f) s = PyStr.take n s +:+ PyStr.take f (PyStr.drop n s).
Proof.
  revert s. induction n as [|n IH]; intros s; simpl.
  - destruct f, s; reflexivity.
  - destruct s as [|c s]; simpl; [destruct f; reflexivity|].
    rewrite IH. reflexivity.
Qed.

Lemma all_digits_take_span (s : string) :
  PyStr.all_digits (PyStr.take (PyStr.span_digits s) s) = true.
Proof.
  induction s as [|c s IH]; simpl; [reflexivity|].
  destruct (PyStr.is_digit c) eqn:E; simpl; [|reflexivity].
  rewrite E. assumption.
Qed.

Lemma length_take_span (s : string) :
  String.length (PyStr.take (PyStr.span_digits s) s) = PyStr.span_digits s.
Proof.
  induction s as [|c s IH]; simpl; [reflexivity|].
  destruct (PyStr.is_digit c); simpl; [rewrite IH|]; reflexivity.
Qed.

(** A run of digits followed by something that does not start with a
    digit: the run is the digit prefix, the rest is what follows. *)
Lemma span_digits_app (ds rest : string) :
  PyStr.all_digits ds = true →
  PyStr.span_digits rest = 0%nat →
  PyStr.span_digits (ds +:+ rest) = String.length ds
  ∧ PyStr.drop (String.length ds) (ds +:+ rest) = rest.
Proof.
  intros Hds Hrest. induction ds as [|c ds IH]; simpl in *.
  - split; [assumption|]. destruct rest; reflexivity.
  - apply andb_prop in Hds as [Hc Hds]. rewrite Hc.
    destruct (IH Hds) as [-> ->]. split; reflexivity.
Qed.

Lemma match_amount_without_comma (s : string) :
  has_char ","%char s = false →
  Re.match_amount s =
    let d := PyStr.span_digits s in
    if (d =? 0)%nat then 0%nat else (d + Re.fraction (PyStr.drop d s))%nat.
Proof.
  intros Hs. unfold Re.match_amount. simpl.
  destruct (PyStr.span_digits s =? 0)%nat; [reflexivity|].
  rewrite (comma_groups_without_comma _ (has_char_drop _ _ _ Hs)).
  simpl. rewrite Nat.add_0_r.
  destruct (PyStr.drop (PyStr.span_digits s) s); reflexivity.
Qed.

Lemma fraction_cases (rest : string) :
  Re.fraction rest = 0%nat
  ∨ ∃ r, rest = String "."%char r
         ∧ PyStr.span_digits r ≠ 0%nat
         ∧ Re.fraction rest = S (PyStr.span_digits r).
Proof.
  destruct rest as [|c r]; [left; reflexivity|].
  destruct (Ascii.eqb_spec c "."%char) as [->|Hc].
  - simpl. destruct (PyStr.span_digits r =? 0)%nat eqn:E; [left; reflexivity|].
    right. exists r. apply Nat.eqb_neq in E. auto.
  - left. destruct c as [[] [] [] [] [] [] [] []]; try reflexivity.
    contradiction Hc. reflexivity.
Qed.

Lemma is_decimal_digits_then (ds tail : string) :
  PyStr.all_digits ds = true →
  String.length ds ≠ 0%nat →
  tail = EmptyString
  ∨ (∃ fr, tail = String "."%char fr
           ∧ PyStr.all_digits fr = true ∧ String.length fr ≠ 0%nat) →
  is_decimal (ds +:+ tail) = true.
Proof.
  intros Hds Hlen Htail. unfold is_decimal.
  assert (Hspan : PyStr.span_digits tail = 0%nat).
  { destruct Htail as [->|(fr & -> & _)]; reflexivity. }
  destruct (span_digits_app ds tail Hds Hspan) as [-> ->].
  apply Nat.eqb_neq in Hlen. rewrite Hlen. simpl.
  destruct Htail as [->|(fr & -> & Hfr & Hn)]; [reflexivity|].
  rewrite Hfr. apply Nat.eqb_neq in Hn. rewrite Hn. reflexivity.
Qed.

(** Without commas, what the pattern matches is a decimal literal. *)
Lemma matched_is_decimal (s : string) (n : nat) :
  has_char ","%char s = false →
  Re.match_amount s = S n →
  is_decimal (PyStr.take (S n) s) = true.
Proof.
  intros Hs Hm. rewrite <- Hm. revert Hm.
  rewrite (match_amount_without_comma s Hs). simpl.
  destruct (PyStr.span_digits s =? 0)%nat eqn:Hd; [discriminate|].
  intros _. apply Nat.eqb_neq in Hd.
  rewrite take_add. apply is_decimal_digits_then.
  - apply all_digits_take_span.
  - rewrite length_take_span. assumption.
  - destruct (fraction_cases (PyStr.drop (PyStr.span_digits s) s))
      as [->|(r & -> & Hr & ->)].
    + left. destruct (PyStr.drop _ s); reflexivity.
    + right. exists (PyStr.take (PyStr.span_digits r) r). split; [reflexivity|].
      split; [apply all_digits_take_span|]. rewrite length_take_span. assumption.
Qed.

Lemma findall_from_decimal (s : string) (skip : nat) :
  has_char ","%char s = false →
  Forall (fun n => is_decimal n = true) (Re.findall_from skip s).
Proof.
  revert skip. induction s as [|c s IH]; intros skip Hs; [constructor|].
  assert (Hs' : has_char ","%char s = false).
  { simpl in Hs. apply orb_false_elim in Hs as [_ Hs]. exact Hs. }
  cbn [Re.findall_from]. destruct skip as [|k]; [|auto].
  destruct (Re.match_amount (String c s)) as [|n] eqn:Hm; [auto|].
  constructor; [|auto]. apply matched_is_decimal; assumption.
Qed.

Lemma findall_from_no_digit (s : string) (skip : nat) :
  PyStr.has_digit s = false → Re.findall_from skip s = [].
Proof.
  revert skip. induction s as [|c s IH]; intros skip Hs; [reflexivity|].
  simpl in Hs. apply orb_false_elim in Hs as [Hc Hs].
  cbn [Re.findall_from]. destruct skip as [|k]; [|auto].
  unfold Re.match_amount. simpl. rewrite Hc. simpl. auto.
Qed.

Lemma span_digits_has_digit (s : string) :
  PyStr.span_digits s ≠ 0%nat → PyStr.has_digit s = true.
Proof.
  destruct s as [|c s]; simpl; [congruence|].
  destruct (PyStr.is_digit c); [reflexivity|congruence].
Qed.

Lemma findall_digit (s : string) :
  PyStr.has_digit s = true → Re.findall s ≠ [].
Proof.
  unfold Re.findall. induction s as [|c s IH]; simpl; [discriminate|].
  destruct (PyStr.is_digit c) eqn:Hc; simpl.
  - intros _. unfold Re.match_amount. simpl. rewrite Hc. simpl. discriminate.
  - intros Hs. unfold Re.match_amount. simpl. rewrite Hc. simpl. auto.
Qed.

(** [float()] accepts every decimal literal. *)
Lemma float_of_decimal (n : string) :
  is_decimal n = true → ∃ x, PyFloat.float_of_str n = inr x.
Proof.
  unfold is_decimal, PyFloat.float_of_str.
  destruct (PyStr.span_digits n =? 0)%nat eqn:Hd; simpl; [discriminate|].
  destruct (PyStr.drop (PyStr.span_digits n) n) as [|c fr]; [eauto|].
  destruct (Ascii.eqb_spec c "."%char) as [->|Hc].
  - intros Hfr. apply andb_prop in Hfr as [Hfr Hn]. rewrite Hfr. simpl.
    apply negb_true_iff, Nat.eqb_neq in Hn.
    assert ((PyStr.span_digits n + String.length fr =? 0)%nat = false) as ->
      by (apply Nat.eqb_neq; lia).
    simpl. eauto.
  - destruct c as [[] [] [] [] [] [] [] []]; try discriminate.
    contradiction Hc. reflexivity.
Qed.

End StringFacts.

Section Extraction.
Import GeminiService.

(** The extraction never raises. *)
Lemma extract_amount_total (text : string) :
  ∃ amount, _extract_amount text = inr amount.
Proof.
  unfold _extract_amount.
  pose proof (findall_from_decimal (PyStr.remove_char ","%char text) 0
                (has_char_remove_char _ _)) as Hall.
  fold (Re.findall (PyStr.remove_char ","%char text)) in Hall.
  destruct (last (Re.findall (PyStr.remove_char ","%char text))) as [n|] eqn:Hlast;
    [|eauto].
  apply float_of_decimal.
  apply last_Some in Hlast as [l' Hl]. rewrite Hl in Hall.
  apply Forall_app in Hall as [_ Hn]. by inversion Hn.
Qed.

Lemma extract_amount_no_digit (text : string) :
  PyStr.has_digit text = false → _extract_amount text = inr 0%float.
Proof.
  intros Hd. unfold _extract_amount, Re.findall.
  rewrite findall_from_no_digit; [reflexivity|].
  rewrite has_digit_remove_comma. exact Hd.
Qed.

(** C6. The amount extraction removes the commas, scans the text for the
    numbers (runs of digits with an optional decimal part) and returns
    the last one as a float, or 0.0 when the text holds no number, which
    is the case exactly when it holds no digit. In particular
    "dinner Saturday 2500" gives 2500.0 and "balance is 18,000.50" gives
    18000.5. *)
Theorem extract_amount_last_number :
  (∀ text : string,
      let numbers := Re.findall (PyStr.remove_char ","%char text) in
      Forall (fun n => is_decimal n = true) numbers
      ∧ (numbers = [] ↔ PyStr.has_digit text = false)
      ∧ match last numbers with
        | Some n => ∃ x, PyFloat.float_of_str n = inr x ∧ _extract_amount text = inr x
        | None => _extract_amount text = inr 0%float
        end)
  ∧ (∀ text : string, PyStr.has_digit text = false → _extract_amount text = inr 0%float)
  ∧ _extract_amount "dinner Saturday 2500" = inr 2500%float
  ∧ _extract_amount "balance is 18,000.50" = inr 18000.5%float.
Proof.
  split; [|split; [exact extract_amount_no_digit|split; vm_compute; reflexivity]].
  intros text numbers.
  assert (Hall : Forall (fun n => is_decimal n = true) numbers)
    by apply findall_from_decimal, has_char_remove_char.
  split; [exact Hall|]. split.
  - split.
    + intros Hnil. destruct (PyStr.has_digit text) eqn:Hd; [|reflexivity].
      exfalso. apply (findall_digit (PyStr.remove_char ","%char text)); [|exact Hnil].
      rewrite has_digit_remove_comma. exact Hd.
    + intros Hd. apply findall_from_no_digit.
      rewrite has_digit_remove_comma. exact Hd.
  - unfold _extract_amount. fold numbers.
    destruct (last numbers) as [n|] eqn:Hlast; [|reflexivity].
    apply last_Some in Hlast as [l' Hl]. rewrite Hl in Hall.
    apply Forall_app in Hall as [_ Hn]. inversion Hn as [|? ? Hdec _]; subst.
    destruct (float_of_decimal n Hdec) as [x Hx]. exists x. split; assumption.
Qed.

End Extraction.

(* ===================================================================== *)
(** * Properties of the fallback classifier *)
(* ===================================================================== *)

Section Fallback.
Import GeminiService.

Lemma contains_any_balance (l : string) :
  PyStr.contains_any balance_words l =
    PyStr.contains "balance" l || PyStr.contains "have" l
    || PyStr.contains "now" l || PyStr.contains "current" l.
Proof.
  unfold PyStr.contains_any, balance_words. cbn [existsb].
  rewrite orb_false_r, !orb_assoc. reflexivity.
Qed.

Lemma contains_any_question (l : string) :
  PyStr.contains_any question_words l =
    PyStr.contains "can i" l || PyStr.contains "should i" l
    || PyStr.contains "afford" l || PyStr.contains "?" l
    || PyStr.contains "how much" l.
Proof.
  unfold PyStr.contains_any, question_words. cbn [existsb].
  rewrite orb_false_r, !orb_assoc. reflexivity.
Qed.

(** C3. On every text the fallback classifier returns a classified input
    and does not raise; the kind is BALANCE_UPDATE with confidence 0.7
    (and the extracted amount, or 0, as balance) when the lowercased text
    contains "balance", "have", "now" or "current"; otherwise QUESTION with confidence 0.7 when it contains
    "can i", "should i", "afford", "?" or "how much"; otherwise
    FINANCIAL_COMMITMENT with confidence 0.6, the whole text as
    description and as amount the extracted amount, or 0 when that is
    zero. *)
Theorem fallback_classification_total (text : string) :
  ∃ (c : ClassifiedInput) (amount : float),
    _fallback_classification text = inr c
    ∧ _extract_amount text = inr amount
    ∧ let l := PyStr.lower text in
      if PyStr.contains "balance" l || PyStr.contains "have" l
         || PyStr.contains "now" l || PyStr.contains "current" l
      then input_type c = BALANCE_UPDATE
           ∧ confidence c = 0.7%float
           ∧ extracted_data c !! "balance" =
               Some (if PyFloat.truthy amount then VFloat amount else VInt 0)
      else if PyStr.contains "can i" l || PyStr.contains "should i" l
              || PyStr.contains "afford" l || PyStr.contains "?" l
              || PyStr.contains "how much" l
      then input_type c = QUESTION ∧ confidence c = 0.7%float
      else input_type c = FINANCIAL_COMMITMENT
           ∧ confidence c = 0.6%float
           ∧ extracted_data c !! "description" = Some (VStr text)
           ∧ extracted_data c !! "amount" =
               Some (if PyFloat.truthy amount then VFloat amount else VInt 0).
Proof.
  destruct (extract_amount_total text) as [amount Ha].
  unfold _fallback_classification.
  rewrite contains_any_balance, contains_any_question, Ha. cbn zeta.
  destruct (_ || _ || _ || PyStr.contains "current" _).
  { eexists _, amount. split; [reflexivity|]. split; [reflexivity|].
    split; [reflexivity|]. split; [reflexivity|]. apply lookup_singleton_eq. }
  destruct (_ || _ || _ || _ || PyStr.contains "how much" _);
    [eexists _, amount; repeat split; reflexivity|].
  eexists _, amount. split; [reflexivity|]. split; [reflexivity|].
  split; [reflexivity|]. split; [reflexivity|]. cbn [extracted_data].
  split; [apply lookup_insert_eq|].
  rewrite lookup_insert_ne by discriminate. apply lookup_insert_eq.
Qed.

(** C8, as stated, fails: "how much" holds no digit and is classified as
    a question, and its payload carries the number 0.0 as target amount,
    not an absent value. *)
Lemma fallback_question_target_is_zero :
  PyStr.has_digit "how much" = false
  ∧ ∃ c, _fallback_classification "how much" = inr c
         ∧ input_type c = QUESTION
         ∧ extracted_data c !! "target_amount" = Some (VFloat 0%float)
         ∧ extracted_data c !! "target_amount" ≠ None
         ∧ extracted_data c !! "target_amount" ≠ Some VNone.
Proof.
  split; [reflexivity|]. eexists. split; [vm_compute; reflexivity|].
  split; [reflexivity|]. split; [vm_compute; reflexivity|].
  split; vm_compute; discriminate.
Qed.

(** C8, amended. When the fallback classifier classifies a text as
    QUESTION, the payload holds the whole text as question and the
    extracted amount as target amount, and that amount is the float 0.0
    when the text holds no digit. The advice template then treats the
    target 0.0 as it treats an absent one. *)
Theorem fallback_question_payload (text : string) (c : ClassifiedInput) :
  _fallback_classification text = inr c →
  input_type c = QUESTION →
  ∃ amount : float,
    _extract_amount text = inr amount
    ∧ extracted_data c !! "question" = Some (VStr text)
    ∧ extracted_data c !! "target_amount" = Some (VFloat amount)
    ∧ (PyStr.has_digit text = false → amount = 0%float)
    ∧ ∀ current_balance total : float,
        fallback_advice current_balance total (Some 0%float)
        = fallback_advice current_balance total None.
Proof.
  intros Hc Ht. destruct (extract_amount_total text) as [amount Ha].
  exists amount. split; [exact Ha|].
  unfold _fallback_classification in Hc. rewrite Ha in Hc.
  destruct (PyStr.contains_any balance_words _);
    [injection Hc as <-; discriminate Ht|].
  destruct (PyStr.contains_any question_words _);
    [|injection Hc as <-; discriminate Ht].
  injection Hc as <-. cbn [extracted_data].
  split; [apply lookup_insert_eq|].
  split; [rewrite lookup_insert_ne by discriminate; apply lookup_singleton_eq|].
  split; [|reflexivity].
  intros Hd. rewrite (extract_amount_no_digit text Hd) in Ha. congruence.
Qed.

(** The amended C8 at "can I afford a 3000 gadget?". *)
Lemma fallback_question_payload_witness :
  let text := "can I afford a 3000 gadget?" in
  let c := {| input_type := QUESTION; confidence := 0.7;
              extracted_data :=
                <[ "question" := VStr text ]> {[ "target_amount" := VFloat 3000 ]} |} in
  _fallback_classification text = inr c
  ∧ input_type c = QUESTION
  ∧ ∃ amount : float,
      _extract_amount text = inr amount
      ∧ extracted_data c !! "question" = Some (VStr text)
      ∧ extracted_data c !! "target_amount" = Some (VFloat amount)
      ∧ (PyStr.has_digit text = false → amount = 0%float)
      ∧ ∀ current_balance total : float,
          fallback_advice current_balance total (Some 0%float)
          = fallback_advice current_balance total None.
Proof.
  intros text c.
  assert (Hc : _fallback_classification text = inr c) by (vm_compute; reflexivity).
  split; [exact Hc|]. split; [reflexivity|].
  exact (fallback_question_payload text c Hc eq_refl).
Defined.

(** ** The deterministic advice *)

Lemma sum_amounts_of_amounts (amounts : list float) (acc : float) :
  sum_amounts acc (item_with_amount <$> amounts)
  = inr (fold_left PrimFloat.add amounts acc).
Proof.
  revert acc. induction amounts as [|a amounts IH]; intros acc; simpl; auto.
Qed.

(** C2, as stated, fails. For a balance of 10000, upcoming commitments of
    2000 and 1500 and a target of 8000, the fallback advice recommends
    waiting and names the balance, the commitments, the available 6500 and
    the target, but no shortfall of 1500. And a target of 0.0, though
    given and above the available funds of -100, gets the advice to keep a
    buffer. *)
Lemma fallback_advice_names_no_shortfall :
  (∃ text : string,
      generate_advice None "can I afford it?" 10000
        [item_with_amount 2000; item_with_amount 1500] (Some 8000%float) = inr text
      ∧ text = "Based on your balance of $10000.00 and upcoming commitments of $3500.00, you have $6500.00 available. The $8000.00 purchase exceeds your available funds. Consider waiting until after your commitments are fulfilled."
      ∧ PyStr.contains "1500" text = false
      ∧ PyStr.contains "shortfall" text = false)
  ∧ PrimFloat.ltb (0 - 100) 0 = true
  ∧ generate_advice None "is it fine?" 0 [item_with_amount 100] (Some 0%float)
    = inr "You have $-100.00 available after upcoming commitments. This purchase appears affordable, but ensure you maintain an emergency buffer.".
Proof.
  split.
  - eexists. split; [vm_compute; reflexivity|].
    split; [reflexivity|]. split; vm_compute; reflexivity.
  - split; vm_compute; reflexivity.
Qed.

(** C2, amended. When the backend call fails, the advice is computed from
    available = current_balance - sum of the upcoming amounts: if a
    target amount is given, is not zero and exceeds available, the advice
    names the balance, the sum of the commitments, the available funds
    and the target, says the purchase exceeds the available funds and
    recommends waiting; otherwise it names the available funds and
    recommends keeping an emergency buffer. For 10000, [2000, 1500] and
    the target 8000, available is 6500, below the target, and the advice
    recommends waiting. *)
Theorem fallback_advice_template
    (question : string) (current_balance : float) (amounts : list float)
    (target_amount : option float) :
  let total := fold_left PrimFloat.add amounts 0%float in
  let available := (current_balance - total)%float in
  generate_advice None question current_balance
    (item_with_amount <$> amounts) target_amount
  = inr (match target_amount with
         | Some t =>
             if negb (PrimFloat.eqb t 0) && PrimFloat.ltb available t
             then "Based on your balance of $" +:+ PyFloat.format_2f current_balance
                  +:+ " and upcoming commitments of $" +:+ PyFloat.format_2f total
                  +:+ ", you have $" +:+ PyFloat.format_2f available
                  +:+ " available. The $" +:+ PyFloat.format_2f t
                  +:+ " purchase exceeds your available funds. Consider waiting until after your commitments are fulfilled."
             else "You have $" +:+ PyFloat.format_2f available
                  +:+ " available after upcoming commitments. This purchase appears affordable, but ensure you maintain an emergency buffer."
         | None =>
             "You have $" +:+ PyFloat.format_2f available
             +:+ " available after upcoming commitments. This purchase appears affordable, but ensure you maintain an emergency buffer."
         end)
  ∧ (10000 - fold_left PrimFloat.add [2000; 1500] 0 = 6500)%float
  ∧ PrimFloat.ltb 6500 8000 = true
  ∧ generate_advice None question 10000
      (item_with_amount <$> [2000%float; 1500%float]) (Some 8000%float)
    = inr "Based on your balance of $10000.00 and upcoming commitments of $3500.00, you have $6500.00 available. The $8000.00 purchase exceeds your available funds. Consider waiting until after your commitments are fulfilled.".
Proof.
  intros total available. split.
  - unfold generate_advice. rewrite sum_amounts_of_amounts. fold total.
    destruct target_amount as [t|]; reflexivity.
  - split; [reflexivity|]. split; [reflexivity|].
    unfold generate_advice. rewrite sum_amounts_of_amounts.
    vm_compute. reflexivity.
Qed.

End Fallback.

(* ===================================================================== *)
(** * Properties of the handlers *)
(* ===================================================================== *)

Section Handlers.
Context `{Lib}.
Import FinancialService.

#[local] Arguments Schema.validate_commitment : simpl never.
#[local] Arguments Schema.validate_balance : simpl never.
#[local] Arguments Schema.validate_question : simpl never.

(** Routing: once classified, the request is the run of one handler. *)
Lemma process_input_routes (w : World) (user_id text : string)
    (c : ClassifiedInput) (d : Db) :
  GeminiService.classify_and_extract (primary w) text = inr c →
  Sql.run (process_input w user_id text) d =
    Sql.run (match input_type c with
             | FINANCIAL_COMMITMENT => _handle_commitment w user_id text (extracted_data c)
             | BALANCE_UPDATE => _handle_balance_update w user_id text (extracted_data c)
             | QUESTION => _handle_question w user_id text (extracted_data c)
             end) d.
Proof. intros Hc. unfold process_input. rewrite Hc. reflexivity. Qed.

Lemma process_input_raises (w : World) (user_id text : string) (e : exn) (d : Db) :
  GeminiService.classify_and_extract (primary w) text = inl e →
  Sql.run (process_input w user_id text) d = (inl e, d).
Proof. intros Hc. unfold process_input. rewrite Hc. by destruct d. Qed.

(** C5. The balance handler appends the BALANCE_UPDATE event and writes
    the user's balance row (new, or overwritten with the balance and the
    time) in one transaction: when the commit goes through both are in
    the tables, when it is refused the tables are as before, the handler
    raises, and the request fails with a 500. *)
Theorem balance_update_is_atomic (w : World) (user_id raw_input : string)
    (payload : gmap string pyval) (d : Db) :
  let outcome := Sql.run (_handle_balance_update w user_id raw_input payload) d in
  match Schema.validate_balance payload with
  | inl e => outcome = (inl e, d)
  | inr b =>
      if commit_ok w 0
      then ∃ result,
          outcome =
            (inr result,
             {| tables :=
                  {| financial_records :=
                       financial_records (tables d)
                       ++ [balance_event (id_seq d + 1) user_id raw_input (bd_balance b)];
                     user_balances :=
                       <[ user_id := {| UserBalance.current_balance := bd_balance b;
                                        UserBalance.last_updated := now w |} ]>
                         (user_balances (tables d)) |};
                id_seq := id_seq d + 1 |})
          ∧ success result = true
      else outcome = (inl SQLAlchemyError, {| tables := tables d; id_seq := id_seq d + 1 |})
           ∧ ∀ conf : float,
               Api.process_financial_input
                 (with_primary {| input_type := BALANCE_UPDATE; confidence := conf;
                                  extracted_data := payload |} w)
                 user_id raw_input d
               = (Error500, {| tables := tables d; id_seq := id_seq d + 1 |})
  end.
Proof.
  intros outcome. subst outcome.
  destruct (Schema.validate_balance payload) as [e|b] eqn:Hv.
  - unfold _handle_balance_update. rewrite Hv. run_handler. by destruct d.
  - destruct (commit_ok w 0) eqn:Hc.
    + unfold _handle_balance_update. rewrite Hv. run_handler.
      destruct (user_balances (tables d) !! user_id); cbn; rewrite Hc; cbn;
        eexists; (split; [reflexivity|reflexivity]).
    + split.
      * unfold _handle_balance_update. rewrite Hv. run_handler.
        destruct (user_balances (tables d) !! user_id); cbn; rewrite Hc; reflexivity.
      * intros conf. unfold Api.process_financial_input.
        erewrite process_input_routes by reflexivity. cbn [input_type extracted_data].
        unfold _handle_balance_update. rewrite Hv. run_handler.
        destruct (user_balances (tables d) !! user_id); cbn; rewrite Hc; reflexivity.
Qed.

Lemma history_of_appended (user_id : string) (limit : nat) (d : Db)
    (rows : list FinancialRecord.t) (r : FinancialRecord.t) :
  financial_records (tables d) = rows ++ [r] →
  FinancialRecord.user_id r = user_id →
  (0 < limit)%nat →
  head (Api.get_user_history user_id limit d) = Some r.
Proof.
  intros Hd Hu Hl. unfold Api.get_user_history. rewrite Hd.
  rewrite List.filter_app. cbn [List.filter].
  rewrite bool_decide_eq_true_2 by exact Hu.
  rewrite reverse_app. destruct limit; [lia|]. reflexivity.
Qed.

(** C4. When the ledger commit has gone through and the mirroring into
    the index raises, the commitment handler still returns success with
    the id of the event, the COMMITMENT event is in the ledger, and the
    history of the user shows it first. *)
Theorem commitment_survives_index_failure (w : World) (user_id raw_input : string)
    (payload : gmap string pyval) (d : Db) (c : CommitmentData) :
  Schema.validate_commitment payload = inr c →
  commit_ok w 0 = true →
  index_upsert_ok w = false →
  let r := commitment_event (id_seq d + 1) user_id raw_input c in
  ∃ (result : ProcessedResult) (d' : Db),
    Sql.run (_handle_commitment w user_id raw_input payload) d = (inr result, d')
    ∧ success result = true
    ∧ data result ≫= (.!! "id") = Some (VInt (FinancialRecord.id r))
    ∧ FinancialRecord.input_type r = FINANCIAL_COMMITMENT
    ∧ financial_records (tables d') = financial_records (tables d) ++ [r]
    ∧ user_balances (tables d') = user_balances (tables d)
    ∧ ∀ limit : nat, (0 < limit)%nat →
        head (Api.get_user_history user_id limit d') = Some r.
Proof.
  intros Hv Hc Hi r. unfold _handle_commitment. rewrite Hv. run_handler.
  rewrite Hc. cbn. unfold PineconeService.store_commitment. rewrite Hi. cbn.
  eexists _, _. split; [reflexivity|]. split; [reflexivity|].
  split; [cbn; apply lookup_insert_eq|]. split; [reflexivity|].
  split; [reflexivity|]. split; [reflexivity|].
  intros limit Hl. eapply history_of_appended; [reflexivity|reflexivity|exact Hl].
Qed.

(** C7, amended. The commitment handler validates the payload against
    {description: a string, amount: a number above 0, date: an optional
    timestamp}. When the description is missing or not a string, the
    amount is missing or not a number, the amount is not above 0, or the
    date is given and is not a timestamp, the handler raises a validation
    error before any write: the database is as before and the request
    fails with a 500. (An empty description is a string and passes.) *)
Theorem commitment_validation_error (w : World) (user_id raw_input : string)
    (payload : gmap string pyval) (d : Db) :
  Schema.str_field (payload !! "description") = None
  ∨ Schema.float_field (payload !! "amount") = None
  ∨ (∃ x, Schema.float_field (payload !! "amount") = Some x ∧ PrimFloat.ltb 0 x = false)
  ∨ Schema.optional_datetime_field (payload !! "date") = None →
  Sql.run (_handle_commitment w user_id raw_input payload) d
  = (inl (ValidationError "CommitmentData"), d)
  ∧ ∀ conf : float,
      Api.process_financial_input
        (with_primary {| input_type := FINANCIAL_COMMITMENT; confidence := conf;
                         extracted_data := payload |} w)
        user_id raw_input d
      = (Error500, d).
Proof.
  intros Hbad.
  assert (Hv : Schema.validate_commitment payload = inl (ValidationError "CommitmentData")).
  { unfold Schema.validate_commitment.
    destruct Hbad as [-> | [Ha | [(x & -> & Hx) | Hd]]]; [reflexivity| | |].
    - rewrite Ha. by destruct (Schema.str_field _).
    - cbn. unfold Schema.gt0. rewrite Hx. by destruct (Schema.str_field _).
    - rewrite Hd. destruct (Schema.str_field _); [|reflexivity].
      cbn. by destruct (Schema.float_field _ ≫= Schema.gt0). }
  split.
  - unfold _handle_commitment. rewrite Hv. run_handler. by destruct d.
  - intros conf. unfold Api.process_financial_input.
    erewrite process_input_routes by reflexivity. cbn [input_type extracted_data].
    unfold _handle_commitment. rewrite Hv. run_handler. by destruct d.
Qed.

(** ** What a request does to the tables *)

#[local] Arguments GeminiService.generate_advice : simpl never.

Lemma ledger_fields_set_vector_id (i : Z) (v : string) (x : FinancialRecord.t) :
  ledger_fields (if FinancialRecord.id x =? i
                 then FinancialRecord.with_vector_id v x else x)
  = ledger_fields x.
Proof. by destruct (FinancialRecord.id x =? i). Qed.

Lemma effect_append (d d' : Db) (r : FinancialRecord.t) :
  FinancialRecord.input_type r ≠ BALANCE_UPDATE →
  financial_records (tables d') = financial_records (tables d) ++ [r] →
  user_balances (tables d') = user_balances (tables d) →
  request_effect d d'.
Proof.
  intros Ht Hr Hb. apply (effect_event d d' (fun x => x) r); auto.
  rewrite Hr. symmetry. apply list_fmap_id.
Qed.

Lemma handle_commitment_effect (w : World) (user_id raw_input : string)
    (payload : gmap string pyval) (d : Db) :
  request_effect d (Sql.run (_handle_commitment w user_id raw_input payload) d).2.
Proof.
  unfold _handle_commitment.
  destruct (Schema.validate_commitment payload) as [e|c]; run_handler.
  { by apply effect_nothing. }
  destruct (commit_ok w 0); cbn; [|by apply effect_nothing].
  unfold PineconeService.store_commitment.
  destruct (index_upsert_ok w); cbn.
  - destruct (commit_ok w 1); cbn.
    + eapply effect_event; [apply ledger_fields_set_vector_id| |reflexivity|reflexivity].
      discriminate.
    + eapply effect_append; [|reflexivity|reflexivity]. discriminate.
  - eapply effect_append; [|reflexivity|reflexivity]. discriminate.
Qed.

Lemma handle_balance_update_effect (w : World) (user_id raw_input : string)
    (payload : gmap string pyval) (d : Db) :
  request_effect d (Sql.run (_handle_balance_update w user_id raw_input payload) d).2.
Proof.
  unfold _handle_balance_update.
  destruct (Schema.validate_balance payload) as [e|b]; run_handler.
  { by apply effect_nothing. }
  destruct (user_balances (tables d) !! user_id); cbn;
    (destruct (commit_ok w 0); cbn; [|by apply effect_nothing]);
    apply effect_balance
      with (user_id := user_id)
           (r := balance_event (id_seq d + 1) user_id raw_input (bd_balance b))
           (b := {| UserBalance.current_balance := bd_balance b;
                    UserBalance.last_updated := now w |});
    reflexivity.
Qed.

Lemma handle_question_effect (w : World) (user_id raw_input : string)
    (payload : gmap string pyval) (d : Db) :
  request_effect d (Sql.run (_handle_question w user_id raw_input payload) d).2.
Proof.
  unfold _handle_question.
  destruct (Schema.validate_question payload) as [e|q]; run_handler.
  { by apply effect_nothing. }
  unfold PineconeService.query_relevant_commitments.
  destruct (index_matches w); cbn;
    (destruct (GeminiService.generate_advice _ _ _ _ _); cbn;
       [by apply effect_nothing|]);
    (destruct (commit_ok w 0); cbn; [|by apply effect_nothing]);
    (eapply effect_append; [|reflexivity|reflexivity]); discriminate.
Qed.

Lemma process_input_effect (w : World) (user_id text : string) (d : Db) :
  request_effect d (Sql.run (process_input w user_id text) d).2.
Proof.
  destruct (GeminiService.classify_and_extract (primary w) text) as [e|c] eqn:Hc.
  - rewrite (process_input_raises _ _ _ _ _ Hc). by apply effect_nothing.
  - rewrite (process_input_routes _ _ _ _ _ Hc).
    destruct (input_type c);
      auto using handle_commitment_effect, handle_balance_update_effect,
        handle_question_effect.
Qed.

Lemma serve_effect (d : Db) (q : Request) : request_effect d (serve d q).
Proof.
  unfold serve, Api.process_financial_input.
  pose proof (process_input_effect (req_world q) (req_user q) (req_text q) d) as He.
  destruct (Sql.run _ d) as [[e|r] d']; exact He.
Qed.

(** ** The balance row follows the latest balance update *)

Lemma is_balance_update_of_fields (user_id : string) (x y : FinancialRecord.t) :
  ledger_fields x = ledger_fields y →
  is_balance_update_of user_id x = is_balance_update_of user_id y.
Proof.
  unfold ledger_fields, is_balance_update_of. intros Hf.
  injection Hf as _ -> -> _ _ _ _ _ _. reflexivity.
Qed.

Lemma filter_fmap_fields (p : FinancialRecord.t → bool)
    (f : FinancialRecord.t → FinancialRecord.t) (l : list FinancialRecord.t) :
  (∀ x, p (f x) = p x) →
  List.filter p (f <$> l) = f <$> List.filter p l.
Proof.
  intros Hp. induction l as [|x l IH]; [reflexivity|].
  cbn. rewrite Hp. destruct (p x); cbn; by rewrite IH.
Qed.

Lemma last_balance_update_fmap (user_id : string)
    (f : FinancialRecord.t → FinancialRecord.t) (rows : list FinancialRecord.t) :
  (∀ x, ledger_fields (f x) = ledger_fields x) →
  last_balance_update user_id (f <$> rows) = f <$> last_balance_update user_id rows.
Proof.
  intros Hf. unfold last_balance_update.
  rewrite filter_fmap_fields by (intros x; apply is_balance_update_of_fields, Hf).
  apply fmap_last.
Qed.

Lemma last_balance_update_snoc (user_id : string)
    (rows : list FinancialRecord.t) (r : FinancialRecord.t) :
  last_balance_update user_id (rows ++ [r]) =
    if is_balance_update_of user_id r then Some r
    else last_balance_update user_id rows.
Proof.
  unfold last_balance_update. rewrite List.filter_app. cbn.
  destruct (is_balance_update_of user_id r).
  - apply last_snoc.
  - by rewrite app_nil_r.
Qed.

Lemma balance_of_fields (x y : FinancialRecord.t) :
  ledger_fields x = ledger_fields y →
  FinancialRecord.balance x = FinancialRecord.balance y.
Proof. unfold ledger_fields. intros Hf. by injection Hf. Qed.

Lemma effect_preserves_invariant (d d' : Db) :
  request_effect d d' → balance_invariant d → balance_invariant d'.
Proof.
  intros He Hinv u. specialize (Hinv u). unfold read_balance in *.
  destruct He as [Ht | f r Hf Hty Hrows Hbal | u0 r b Hu Hty Hb Hrows Hbal].
  - rewrite Ht. exact Hinv.
  - rewrite Hrows, Hbal, (last_balance_update_fmap u f _ Hf), last_balance_update_snoc.
    assert (is_balance_update_of u r = false) as ->.
    { unfold is_balance_update_of.
      rewrite (bool_decide_eq_false_2 (_ = BALANCE_UPDATE)) by exact Hty.
      apply andb_false_r. }
    destruct (last_balance_update u (financial_records (tables d))) as [x|]; cbn;
      [|exact Hinv].
    rewrite (balance_of_fields _ _ (Hf x)). exact Hinv.
  - rewrite Hrows, Hbal, last_balance_update_snoc. unfold is_balance_update_of.
    rewrite Hu, Hty. rewrite (bool_decide_eq_true_2 (BALANCE_UPDATE = _)) by reflexivity.
    rewrite andb_true_r. destruct (decide (u0 = u)) as [->|Hne].
    + rewrite bool_decide_eq_true_2 by reflexivity.
      rewrite lookup_insert_eq. exact Hb.
    + rewrite bool_decide_eq_false_2 by exact Hne.
      rewrite lookup_insert_ne by exact Hne. exact Hinv.
Qed.

Lemma empty_db_invariant : balance_invariant empty_db.
Proof. intros u. reflexivity. Qed.

Lemma serve_all_invariant (qs : list Request) (d : Db) :
  balance_invariant d → balance_invariant (serve_all d qs).
Proof.
  revert d. induction qs as [|q qs IH]; intros d Hd; [exact Hd|].
  cbn. apply IH. eapply effect_preserves_invariant; [apply serve_effect|exact Hd].
Qed.

(** C1. After any sequence of requests served from the empty database,
    whatever the world does during them, the balance read for a user is
    the amount of the user's latest BALANCE_UPDATE event, or 0 when the
    user has none; and every request keeps this true. After balance=5000
    then balance=3000 for one user the balance read is 3000 and the
    history holds two entries, both BALANCE_UPDATE. *)
Theorem balance_follows_latest_update :
  (∀ qs : list Request, balance_invariant (serve_all empty_db qs))
  ∧ (∀ (d : Db) (q : Request), balance_invariant d → balance_invariant (serve d q))
  ∧ let d2 := serve_all empty_db
                [balance_request "u1" "balance is 5000" 5000;
                 balance_request "u1" "now it is 3000" 3000] in
    read_balance d2 "u1" = 3000%float
    ∧ FinancialRecord.balance <$> Api.get_user_history "u1" 50 d2
      = [Some 3000%float; Some 5000%float]
    ∧ length (List.filter is_balance_update (Api.get_user_history "u1" 50 d2)) = 2%nat.
Proof.
  split; [|split].
  - intros qs. apply serve_all_invariant, empty_db_invariant.
  - intros d q Hd. eapply effect_preserves_invariant; [apply serve_effect|exact Hd].
  - cbv zeta. split; [vm_compute; reflexivity|]. split; vm_compute; reflexivity.
Qed.

(** ** Commitments without a date and the upcoming-commitments query *)

Lemma elem_of_insert_by_date (x y : FinancialRecord.t) (l : list FinancialRecord.t) :
  x ∈ Sql.insert_by_date y l → x = y ∨ x ∈ l.
Proof.
  induction l as [|z l IH]; cbn.
  - intros Hx. apply list_elem_of_singleton in Hx. by left.
  - destruct (Sql.date_leb y z).
    + intros Hx. apply elem_of_cons in Hx. exact Hx.
    + intros Hx. apply elem_of_cons in Hx as [->|Hx].
      * right. apply elem_of_cons. by left.
      * destruct (IH Hx) as [->|Hl]; [by left|].
        right. apply elem_of_cons. by right.
Qed.

Lemma elem_of_order_by_date (x : FinancialRecord.t) (l : list FinancialRecord.t) :
  x ∈ Sql.order_by_date l → x ∈ l.
Proof.
  induction l as [|y l IH]; cbn; [done|].
  intros Hx. apply elem_of_insert_by_date in Hx as [->|Hx].
  - apply elem_of_cons. by left.
  - apply elem_of_cons. right. by apply IH.
Qed.

Lemma upcoming_has_date (user_id : string) (t0 : datetime)
    (rows : list FinancialRecord.t) (r : FinancialRecord.t) :
  r ∈ Sql.upcoming_of user_id t0 rows →
  ∃ date, FinancialRecord.commitment_date r = Some date ∧ t0 ≤ date.
Proof.
  unfold Sql.upcoming_of. intros Hr.
  apply (subseteq_take 10), elem_of_order_by_date, list_elem_of_In in Hr.
  apply List.filter_In in Hr as [_ Hr].
  unfold Sql.is_upcoming in Hr. apply andb_prop in Hr as [_ Hr].
  destruct (FinancialRecord.commitment_date r) as [date|]; [|discriminate].
  exists date. split; [reflexivity|]. by apply Z.leb_le.
Qed.

Lemma is_upcoming_of_fields (user_id : string) (t0 : datetime)
    (x y : FinancialRecord.t) :
  ledger_fields x = ledger_fields y →
  Sql.is_upcoming user_id t0 x = Sql.is_upcoming user_id t0 y.
Proof.
  unfold ledger_fields, Sql.is_upcoming. intros Hf.
  injection Hf as _ -> -> _ _ -> _ _ _. reflexivity.
Qed.

Lemma date_leb_of_fields (x x' y y' : FinancialRecord.t) :
  ledger_fields x = ledger_fields x' →
  ledger_fields y = ledger_fields y' →
  Sql.date_leb x y = Sql.date_leb x' y'.
Proof.
  unfold ledger_fields, Sql.date_leb. intros Hx Hy.
  injection Hx as _ _ _ _ _ -> _ _ _. injection Hy as _ _ _ _ _ -> _ _ _.
  reflexivity.
Qed.

Lemma order_by_date_fmap (f : FinancialRecord.t → FinancialRecord.t)
    (l : list FinancialRecord.t) :
  (∀ x, ledger_fields (f x) = ledger_fields x) →
  Sql.order_by_date (f <$> l) = f <$> Sql.order_by_date l.
Proof.
  intros Hf.
  assert (Hins : ∀ x l', Sql.insert_by_date (f x) (f <$> l')
                         = f <$> Sql.insert_by_date x l').
  { intros x l'. induction l' as [|y l' IH]; [reflexivity|].
    cbn. rewrite (date_leb_of_fields (f x) x (f y) y) by apply Hf.
    destruct (Sql.date_leb x y); [reflexivity|]. cbn. by rewrite IH. }
  induction l as [|x l IH]; [reflexivity|].
  cbn. change (foldr Sql.insert_by_date [] (f <$> l)) with (Sql.order_by_date (f <$> l)).
  rewrite IH. apply Hins.
Qed.

Lemma item_of_fields (x y : FinancialRecord.t) :
  ledger_fields x = ledger_fields y → item_of x = item_of y.
Proof.
  unfold ledger_fields, item_of. intros Hf.
  injection Hf as _ _ _ -> -> -> _ _ _. reflexivity.
Qed.

(** Index keys attached to events do not show in the entries handed to
    the arithmetic. *)
Lemma upcoming_items_fmap (user_id : string) (t0 : datetime)
    (f : FinancialRecord.t → FinancialRecord.t) (rows : list FinancialRecord.t) :
  (∀ x, ledger_fields (f x) = ledger_fields x) →
  item_of <$> Sql.upcoming_of user_id t0 (f <$> rows)
  = item_of <$> Sql.upcoming_of user_id t0 rows.
Proof.
  intros Hf. unfold Sql.upcoming_of.
  rewrite filter_fmap_fields by (intros x; apply is_upcoming_of_fields, Hf).
  rewrite (order_by_date_fmap f _ Hf), <- fmap_take, <- list_fmap_compose.
  apply list_fmap_ext. intros _ x _. cbn. apply item_of_fields, Hf.
Qed.

Lemma upcoming_snoc_undated (user_id : string) (t0 : datetime)
    (rows : list FinancialRecord.t) (r : FinancialRecord.t) :
  FinancialRecord.commitment_date r = None →
  Sql.upcoming_of user_id t0 (rows ++ [r]) = Sql.upcoming_of user_id t0 rows.
Proof.
  intros Hr. unfold Sql.upcoming_of. rewrite List.filter_app. cbn.
  unfold Sql.is_upcoming at 2. rewrite Hr, andb_false_r. by rewrite app_nil_r.
Qed.

Lemma upcoming_ignores_undated (user_id : string) (t0 : datetime)
    (rows : list FinancialRecord.t) :
  Sql.upcoming_of user_id t0
    (List.filter (fun r => bool_decide (is_Some (FinancialRecord.commitment_date r))) rows)
  = Sql.upcoming_of user_id t0 rows.
Proof.
  unfold Sql.upcoming_of. f_equal. f_equal.
  induction rows as [|r rows IH]; [reflexivity|]. cbn.
  destruct (FinancialRecord.commitment_date r) as [date|] eqn:Hd.
  - rewrite bool_decide_eq_true_2 by eauto. cbn. rewrite IH. reflexivity.
  - rewrite bool_decide_eq_false_2 by (by intros [? ?]).
    unfold Sql.is_upcoming at 2. rewrite Hd, andb_false_r. exact IH.
Qed.

Lemma handle_commitment_rows (w : World) (user_id raw_input : string)
    (payload : gmap string pyval) (d : Db) (c : CommitmentData) :
  Schema.validate_commitment payload = inr c →
  let rows' := financial_records (tables (Sql.run
                 (_handle_commitment w user_id raw_input payload) d).2) in
  rows' = financial_records (tables d)
  ∨ ∃ f, (∀ x, ledger_fields (f x) = ledger_fields x)
         ∧ rows' = f <$> (financial_records (tables d)
                          ++ [commitment_event (id_seq d + 1) user_id raw_input c]).
Proof.
  intros Hv. unfold _handle_commitment. rewrite Hv. run_handler.
  destruct (commit_ok w 0); cbn; [|by left].
  unfold PineconeService.store_commitment.
  destruct (index_upsert_ok w); cbn; [destruct (commit_ok w 1); cbn|].
  - right. eexists. split; [apply ledger_fields_set_vector_id|reflexivity].
  - right. exists (fun x => x). split; [done|]. by rewrite list_fmap_id.
  - right. exists (fun x => x). split; [done|]. by rewrite list_fmap_id.
Qed.

Lemma validate_commitment_undated (payload : gmap string pyval) (c : CommitmentData) :
  payload !! "date" = Some VNone →
  Schema.validate_commitment payload = inr c →
  cd_date c = None.
Proof.
  intros Hd. unfold Schema.validate_commitment. rewrite Hd.
  destruct (Schema.str_field _); [|discriminate]. cbn.
  destruct (Schema.float_field _ ≫= Schema.gt0); [|discriminate]. cbn.
  intros Hc. injection Hc as <-. reflexivity.
Qed.

Lemma fallback_commitment_undated (text : string) (c : ClassifiedInput) :
  GeminiService._fallback_classification text = inr c →
  input_type c = FINANCIAL_COMMITMENT →
  extracted_data c !! "date" = Some VNone.
Proof.
  intros Hc Ht. unfold GeminiService._fallback_classification in Hc.
  destruct (GeminiService._extract_amount text) as [e|amount];
    [by repeat destruct (PyStr.contains_any _ _)|].
  destruct (PyStr.contains_any GeminiService.balance_words _);
    [injection Hc as <-; discriminate Ht|].
  destruct (PyStr.contains_any GeminiService.question_words _);
    [injection Hc as <-; discriminate Ht|].
  injection Hc as <-. reflexivity.
Qed.

(** C10. The upcoming-commitments query of the question handler returns
    only events with a date at or after the current time: an event
    without a date is never in it, and removing all such events from the
    table changes nothing of its result. A commitment classified by the
    fallback classifier is stored without a date, so after such a
    request the entries handed to the affordability arithmetic are, for
    every user and time, what they were before. *)
Theorem undated_commitments_are_not_upcoming (w : World) (user_id text : string)
    (d : Db) (c : ClassifiedInput) :
  primary w = None →
  GeminiService._fallback_classification text = inr c →
  input_type c = FINANCIAL_COMMITMENT →
  let d' := (Sql.run (process_input w user_id text) d).2 in
  (∀ u t0 rows r,
      r ∈ Sql.upcoming_of u t0 rows →
      ∃ date, FinancialRecord.commitment_date r = Some date ∧ t0 ≤ date)
  ∧ (∀ u t0 rows,
        Sql.upcoming_of u t0
          (List.filter (fun r => bool_decide (is_Some (FinancialRecord.commitment_date r)))
                       rows)
        = Sql.upcoming_of u t0 rows)
  ∧ (∀ r, r ∈ financial_records (tables d') →
          (∃ x, x ∈ financial_records (tables d) ∧ ledger_fields r = ledger_fields x)
          ∨ FinancialRecord.commitment_date r = None)
  ∧ (∀ u t0,
        item_of <$> Sql.upcoming_of u t0 (financial_records (tables d'))
        = item_of <$> Sql.upcoming_of u t0 (financial_records (tables d))).
Proof.
  intros Hp Hc Ht d'.
  split; [exact upcoming_has_date|]. split; [exact upcoming_ignores_undated|].
  assert (Hcls : GeminiService.classify_and_extract (primary w) text = inr c)
    by (rewrite Hp; exact Hc).
  subst d'. rewrite (process_input_routes _ _ _ _ _ Hcls), Ht.
  pose proof (fallback_commitment_undated text c Hc Ht) as Hdate.
  destruct (Schema.validate_commitment (extracted_data c)) as [e|cd] eqn:Hv.
  { unfold _handle_commitment. rewrite Hv. run_handler. split; [eauto|done]. }
  pose proof (validate_commitment_undated _ _ Hdate Hv) as Hnone.
  destruct (handle_commitment_rows w user_id text _ d cd Hv) as [->|(f & Hf & ->)];
    [split; [eauto|done]|].
  split.
  - intros r Hr. apply list_elem_of_fmap in Hr as (x & -> & Hx).
    apply elem_of_app in Hx as [Hx|Hx]; [left; eauto|].
    right. apply list_elem_of_singleton in Hx. subst x.
    pose proof (Hf (commitment_event (id_seq d + 1) user_id text cd)) as Hfx.
    unfold ledger_fields in Hfx. injection Hfx as _ _ _ _ _ -> _ _ _. exact Hnone.
  - intros u t0. rewrite (upcoming_items_fmap u t0 f _ Hf).
    by rewrite upcoming_snoc_undated.
Qed.

End Handlers.

(** ** The handlers at concrete requests *)

Section HandlerExamples.
Import FinancialService.

(** C4 at a first commitment of user u1 while the index is down. *)
Lemma commitment_survives_index_failure_witness :
  let payload : gmap string pyval :=
    <[ "description" := VStr "dinner" ]> {[ "amount" := VFloat 2500 ]} in
  let c := {| cd_description := "dinner"; cd_amount := 2500; cd_date := None |} in
  let r := commitment_event 1 "u1" "dinner Saturday 2500" c in
  Schema.validate_commitment (H := plain_lib) payload = inr c
  ∧ commit_ok offline_world 0 = true
  ∧ index_upsert_ok offline_world = false
  ∧ ∃ (result : ProcessedResult) (d' : Db),
      Sql.run (_handle_commitment (H := plain_lib) offline_world "u1"
                 "dinner Saturday 2500" payload) empty_db = (inr result, d')
      ∧ success result = true
      ∧ data result ≫= (.!! "id") = Some (VInt (FinancialRecord.id r))
      ∧ FinancialRecord.input_type r = FINANCIAL_COMMITMENT
      ∧ financial_records (tables d') = financial_records (tables empty_db) ++ [r]
      ∧ user_balances (tables d') = user_balances (tables empty_db)
      ∧ ∀ limit : nat, (0 < limit)%nat →
          head (Api.get_user_history "u1" limit d') = Some r.
Proof.
  intros payload c r.
  assert (Hv : Schema.validate_commitment (H := plain_lib) payload = inr c)
    by (vm_compute; reflexivity).
  split; [exact Hv|]. split; [reflexivity|]. split; [reflexivity|].
  exact (commitment_survives_index_failure (H := plain_lib) offline_world "u1"
           "dinner Saturday 2500" payload empty_db c Hv eq_refl eq_refl).
Defined.

(** C7, as stated, fails: a payload with an empty description and the
    amount 100 does not meet the schema of the specification, and the
    request succeeds and appends the event. *)
Lemma commitment_accepts_empty_description :
  let payload : gmap string pyval :=
    <[ "description" := VStr "" ]> {[ "amount" := VFloat 100 ]} in
  let c := {| input_type := FINANCIAL_COMMITMENT; confidence := 0.9;
              extracted_data := payload |} in
  ¬ spec_commitment_payload (H := plain_lib) payload
  ∧ ∃ (result : ProcessedResult) (d' : Db),
      Api.process_financial_input (H := plain_lib) (classified_world c) "u1" "100" empty_db
      = (Ok200 result, d')
      ∧ success result = true
      ∧ financial_records (tables d')
        = [commitment_event 1 "u1" "100"
             {| cd_description := ""; cd_amount := 100; cd_date := None |}].
Proof.
  intros payload c. split.
  - intros [(s & Hs & Hne) _]. apply Hne.
    revert Hs. vm_compute. congruence.
  - eexists _, _. split; [vm_compute; reflexivity|]. split; reflexivity.
Qed.

(** The amended C7 at the payload the fallback classifier builds for
    "dinner Saturday", whose amount is the integer 0. *)
Lemma commitment_validation_error_witness :
  let payload : gmap string pyval :=
    <[ "description" := VStr "dinner Saturday" ]>
      (<[ "amount" := VInt 0 ]> {[ "date" := VNone ]}) in
  (∃ x, Schema.float_field (H := plain_lib) (payload !! "amount") = Some x
        ∧ PrimFloat.ltb 0 x = false)
  ∧ Sql.run (_handle_commitment (H := plain_lib) offline_world "u1"
               "dinner Saturday" payload) empty_db
    = (inl (ValidationError "CommitmentData"), empty_db)
  ∧ ∀ conf : float,
      Api.process_financial_input (H := plain_lib)
        (with_primary {| input_type := FINANCIAL_COMMITMENT; confidence := conf;
                         extracted_data := payload |} offline_world)
        "u1" "dinner Saturday" empty_db
      = (Error500, empty_db).
Proof.
  intros payload.
  assert (Hx : ∃ x, Schema.float_field (H := plain_lib) (payload !! "amount") = Some x
                    ∧ PrimFloat.ltb 0 x = false).
  { exists 0%float. split; vm_compute; reflexivity. }
  split; [exact Hx|].
  exact (commitment_validation_error (H := plain_lib) offline_world "u1"
           "dinner Saturday" payload empty_db (or_intror (or_intror (or_introl Hx)))).
Defined.

(** C10 at "dinner Saturday 2500", classified by the fallback. *)
Lemma undated_commitments_are_not_upcoming_witness :
  let text := "dinner Saturday 2500" in
  let c := {| input_type := FINANCIAL_COMMITMENT; confidence := 0.6;
              extracted_data :=
                <[ "description" := VStr text ]>
                  (<[ "amount" := VFloat 2500 ]> {[ "date" := VNone ]}) |} in
  let d' := (Sql.run (process_input (H := plain_lib) offline_world "u1" text)
               empty_db).2 in
  primary offline_world = None
  ∧ GeminiService._fallback_classification text = inr c
  ∧ input_type c = FINANCIAL_COMMITMENT
  ∧ financial_records (tables d')
    = [commitment_event 1 "u1" text
         {| cd_description := text; cd_amount := 2500; cd_date := None |}]
  ∧ ∀ u t0,
      item_of (H := plain_lib) <$> Sql.upcoming_of u t0 (financial_records (tables d'))
      = item_of (H := plain_lib)
          <$> Sql.upcoming_of u t0 (financial_records (tables empty_db)).
Proof.
  intros text c d'.
  assert (Hc : GeminiService._fallback_classification text = inr c)
    by (vm_compute; reflexivity).
  split; [reflexivity|]. split; [exact Hc|]. split; [reflexivity|].
  split; [vm_compute; reflexivity|].
  exact (proj2 (proj2 (proj2
           (undated_commitments_are_not_upcoming (H := plain_lib) offline_world "u1"
              text empty_db c eq_refl Hc eq_refl)))).
Defined.

End HandlerExamples.

(* ===================================================================== *)
(** * Properties of the whole pipeline *)
(* ===================================================================== *)

Section Pipeline.
Context `{Lib}.
Import FinancialService.

#[local] Arguments Schema.validate_commitment : simpl never.
#[local] Arguments Schema.validate_balance : simpl never.
#[local] Arguments Schema.validate_question : simpl never.
#[local] Arguments GeminiService.generate_advice : simpl never.

Lemma validate_commitment_positive (payload : gmap string pyval) (c : CommitmentData) :
  Schema.validate_commitment payload = inr c → PrimFloat.ltb 0 (cd_amount c) = true.
Proof.
  unfold Schema.validate_commitment.
  destruct (Schema.str_field _); [|discriminate]. cbn.
  destruct (Schema.float_field _) as [x|]; [|discriminate]. cbn.
  unfold Schema.gt0. destruct (PrimFloat.ltb 0 x) eqn:Hx; [|discriminate]. cbn.
  destruct (Schema.optional_datetime_field _); [|discriminate]. cbn.
  intros Hc. injection Hc as <-. exact Hx.
Qed.

Lemma validate_balance_not_negative (payload : gmap string pyval) (b : BalanceData) :
  Schema.validate_balance payload = inr b → PrimFloat.leb 0 (bd_balance b) = true.
Proof.
  unfold Schema.validate_balance.
  destruct (Schema.float_field _) as [x|]; [|discriminate]. cbn.
  unfold Schema.ge0. destruct (PrimFloat.leb 0 x) eqn:Hx; [|discriminate]. cbn.
  intros Hb. injection Hb as <-. exact Hx.
Qed.

Lemma handle_commitment_step (w : World) (user_id text : string)
    (payload : gmap string pyval) (d : Db) :
  request_step user_id text d (Sql.run (_handle_commitment w user_id text payload) d).2.
Proof.
  unfold _handle_commitment.
  destruct (Schema.validate_commitment payload) as [e|c] eqn:Hv; run_handler.
  { apply step_nothing; [reflexivity|lia]. }
  pose proof (validate_commitment_positive _ _ Hv) as Hpos.
  assert (Hok : event_ok (commitment_event (id_seq d + 1) user_id text c) = true).
  { unfold event_ok. cbn. rewrite Hpos. reflexivity. }
  destruct (commit_ok w 0); cbn; [|apply step_nothing; cbn; [reflexivity|lia]].
  unfold PineconeService.store_commitment.
  destruct (index_upsert_ok w); cbn; [destruct (commit_ok w 1); cbn|].
  - eapply (step_event _ _ _ _ (commitment_event (id_seq d + 1) user_id text c));
      [reflexivity|reflexivity|reflexivity|discriminate|exact Hok| |reflexivity|reflexivity|reflexivity].
    right. eexists. reflexivity.
  - eapply (step_event _ _ _ _ (commitment_event (id_seq d + 1) user_id text c) (fun x => x));
      [reflexivity|reflexivity|reflexivity|discriminate|exact Hok|by left| |reflexivity|reflexivity].
    cbn. by rewrite list_fmap_id.
  - eapply (step_event _ _ _ _ (commitment_event (id_seq d + 1) user_id text c) (fun x => x));
      [reflexivity|reflexivity|reflexivity|discriminate|exact Hok|by left| |reflexivity|reflexivity].
    cbn. by rewrite list_fmap_id.
Qed.

Lemma handle_balance_update_step (w : World) (user_id text : string)
    (payload : gmap string pyval) (d : Db) :
  request_step user_id text d (Sql.run (_handle_balance_update w user_id text payload) d).2.
Proof.
  unfold _handle_balance_update.
  destruct (Schema.validate_balance payload) as [e|b] eqn:Hv; run_handler.
  { apply step_nothing; [reflexivity|lia]. }
  pose proof (validate_balance_not_negative _ _ Hv) as Hpos.
  destruct (user_balances (tables d) !! user_id); cbn;
    (destruct (commit_ok w 0); cbn; [|apply step_nothing; cbn; [reflexivity|lia]]);
    apply (step_balance _ _ _ _ (bd_balance b) (now w)); auto.
Qed.

Lemma handle_question_step (w : World) (user_id text : string)
    (payload : gmap string pyval) (d : Db) :
  request_step user_id text d (Sql.run (_handle_question w user_id text payload) d).2.
Proof.
  unfold _handle_question.
  destruct (Schema.validate_question payload) as [e|q]; run_handler.
  { apply step_nothing; [reflexivity|lia]. }
  unfold PineconeService.query_relevant_commitments.
  destruct (index_matches w); cbn;
    (destruct (GeminiService.generate_advice _ _ _ _ _); cbn;
       [apply step_nothing; cbn; [reflexivity|lia]|]);
    (destruct (commit_ok w 0); cbn; [|apply step_nothing; cbn; [reflexivity|lia]]);
    (eapply (step_event _ _ _ _
               (question_event (id_seq d + 1) user_id text (qd_question q)) (fun x => x));
       [reflexivity|reflexivity|reflexivity|discriminate|reflexivity|by left|
        |reflexivity|reflexivity]);
    cbn; by rewrite list_fmap_id.
Qed.

Lemma process_input_step (w : World) (user_id text : string) (d : Db) :
  request_step user_id text d (Sql.run (process_input w user_id text) d).2.
Proof.
  destruct (GeminiService.classify_and_extract (primary w) text) as [e|c] eqn:Hc.
  - rewrite (process_input_raises _ _ _ _ _ Hc). apply step_nothing; [reflexivity|cbn; lia].
  - rewrite (process_input_routes _ _ _ _ _ Hc).
    destruct (input_type c);
      auto using handle_commitment_step, handle_balance_update_step, handle_question_step.
Qed.

Lemma serve_step (d : Db) (q : Request) :
  request_step (req_user q) (req_text q) d (serve d q).
Proof.
  unfold serve, Api.process_financial_input.
  pose proof (process_input_step (req_world q) (req_user q) (req_text q) d) as Hs.
  destruct (Sql.run _ d) as [[e|r] d']; exact Hs.
Qed.

(** ** What the served ledger always looks like *)

Lemma ledger_fields_mirrored (i : Z) (v : string) (x : FinancialRecord.t) :
  ledger_fields (mirrored i v x) = ledger_fields x.
Proof. unfold mirrored. by destruct (FinancialRecord.id x =? i). Qed.

Lemma step_map_fields (d : Db) (f : FinancialRecord.t → FinancialRecord.t) :
  (f = (fun x => x) ∨ ∃ v, f = mirrored (id_seq d + 1) v) →
  ∀ x, ledger_fields (f x) = ledger_fields x.
Proof. intros [->|[v ->]] x; [reflexivity|apply ledger_fields_mirrored]. Qed.

Lemma event_ok_of_fields (x y : FinancialRecord.t) :
  ledger_fields x = ledger_fields y → event_ok x = event_ok y.
Proof.
  unfold ledger_fields, event_ok. intros Hf.
  injection Hf as _ _ -> -> -> -> -> -> _. reflexivity.
Qed.

Lemma step_events_ok (user_id text : string) (d d' : Db) :
  request_step user_id text d d' → events_ok d → events_ok d'.
Proof.
  unfold events_ok.
  intros [Ht _ | r f _ _ _ _ Hr Hf Hrows _ _ | x t Hx Hrows _ _] Hd.
  - by rewrite Ht.
  - rewrite Hrows. apply Forall_fmap, Forall_app. split.
    + eapply Forall_impl; [exact Hd|]. intros y Hy. cbn.
      by rewrite (event_ok_of_fields _ _ (step_map_fields d f Hf y)).
    + apply Forall_singleton. cbn.
      by rewrite (event_ok_of_fields _ _ (step_map_fields d f Hf r)).
  - rewrite Hrows. apply Forall_app. split; [exact Hd|].
    apply Forall_singleton. unfold event_ok. cbn. by rewrite Hx.
Qed.

Lemma step_balances_ok (user_id text : string) (d d' : Db) :
  request_step user_id text d d' → balances_ok d → balances_ok d'.
Proof.
  unfold balances_ok.
  intros [Ht _ | r f _ _ _ _ _ _ _ Hbal _ | x t Hx _ Hbal _] Hd u b.
  - rewrite Ht. apply Hd.
  - rewrite Hbal. apply Hd.
  - rewrite Hbal. destruct (decide (user_id = u)) as [->|Hne].
    + rewrite lookup_insert_eq. intros Hb. injection Hb as <-. exact Hx.
    + rewrite lookup_insert_ne by exact Hne. apply Hd.
Qed.

Lemma StronglySorted_snoc {A} (R : A → A → Prop) (l : list A) (y : A) :
  StronglySorted R l → Forall (fun x => R x y) l → StronglySorted R (l ++ [y]).
Proof.
  induction 1 as [|x l Hl IH Hx]; intros Hy; cbn.
  - repeat constructor.
  - apply Forall_cons in Hy as [Hxy Hy]. constructor; [by apply IH|].
    apply Forall_app. split; [exact Hx|]. by apply Forall_singleton.
Qed.

Lemma id_of_fields (x y : FinancialRecord.t) :
  ledger_fields x = ledger_fields y → FinancialRecord.id x = FinancialRecord.id y.
Proof. unfold ledger_fields. intros Hf. by injection Hf. Qed.

(** On a table whose ids are within the sequence, attaching the key of
    the next id changes no row. *)
Lemma mirrored_old_rows (d : Db) (v : string) :
  ids_ok d →
  mirrored (id_seq d + 1) v <$> financial_records (tables d)
  = financial_records (tables d).
Proof.
  intros (_ & Hb & _). induction Hb as [|x l Hx _ IH]; [reflexivity|].
  cbn. rewrite IH. f_equal. unfold mirrored.
  assert ((FinancialRecord.id x =? id_seq d + 1) = false) as -> by (apply Z.eqb_neq; lia).
  reflexivity.
Qed.

(** The rows after a request: the rows before, then at most one event. *)
Lemma step_rows (user_id text : string) (d d' : Db) :
  ids_ok d →
  request_step user_id text d d' →
  financial_records (tables d') = financial_records (tables d)
  ∨ ∃ r, financial_records (tables d') = financial_records (tables d) ++ [r]
         ∧ FinancialRecord.id r = id_seq d + 1
         ∧ FinancialRecord.user_id r = user_id
         ∧ FinancialRecord.raw_input r = text
         ∧ event_ok r = true
         ∧ id_seq d' = id_seq d + 1.
Proof.
  intros Hids [Ht _ | r f Hid Hu Hraw _ Hr Hf Hrows _ Hseq | x t Hx Hrows _ Hseq].
  - left. by rewrite Ht.
  - right. exists (f r). rewrite Hrows, fmap_app. cbn.
    pose proof (step_map_fields d f Hf r) as Hfr.
    assert (Hold : f <$> financial_records (tables d) = financial_records (tables d)).
    { destruct Hf as [->|[v ->]]; [apply list_fmap_id|by apply mirrored_old_rows]. }
    rewrite Hold. split; [reflexivity|].
    unfold ledger_fields in Hfr. injection Hfr as -> -> _ _ _ _ _ _ ->.
    rewrite (event_ok_of_fields (f r) r (step_map_fields d f Hf r)). auto.
  - right. eexists. split; [exact Hrows|]. cbn. unfold event_ok. cbn. rewrite Hx. auto.
Qed.

Lemma step_ids_ok (user_id text : string) (d d' : Db) :
  request_step user_id text d d' → ids_ok d → ids_ok d'.
Proof.
  intros Hstep Hd. pose proof Hd as (Hs & Hb & H0).
  destruct (step_rows _ _ _ _ Hd Hstep) as [Hrows | (r & Hrows & Hid & _ & _ & _ & Hseq)].
  - assert (id_seq d ≤ id_seq d') as Hle.
    { destruct Hstep as [_ Hle | | ]; lia. }
    unfold ids_ok. rewrite Hrows. split; [exact Hs|]. split; [|lia].
    eapply Forall_impl; [exact Hb|]. cbn. intros x Hx. lia.
  - unfold ids_ok. rewrite Hrows, Hseq, fmap_app. cbn. split; [|split; [|lia]].
    + apply StronglySorted_snoc; [exact Hs|].
      apply Forall_fmap. eapply Forall_impl; [exact Hb|]. cbn. intros x Hx. lia.
    + apply Forall_app. split.
      * eapply Forall_impl; [exact Hb|]. cbn. intros x Hx. lia.
      * apply Forall_singleton. lia.
Qed.

Lemma empty_db_ids_ok : ids_ok empty_db.
Proof. split; [constructor|]. split; [constructor|]. reflexivity. Qed.

Lemma serve_all_ids_ok (qs : list Request) (d : Db) :
  ids_ok d → ids_ok (serve_all d qs).
Proof.
  revert d. induction qs as [|q qs IH]; intros d Hd; [exact Hd|].
  cbn. apply IH. eapply step_ids_ok; [apply serve_step|exact Hd].
Qed.

Lemma serve_all_events_ok (qs : list Request) (d : Db) :
  events_ok d → events_ok (serve_all d qs).
Proof.
  revert d. induction qs as [|q qs IH]; intros d Hd; [exact Hd|].
  cbn. apply IH. eapply step_events_ok; [apply serve_step|exact Hd].
Qed.

Lemma serve_all_balances_ok (qs : list Request) (d : Db) :
  balances_ok d → balances_ok (serve_all d qs).
Proof.
  revert d. induction qs as [|q qs IH]; intros d Hd; [exact Hd|].
  cbn. apply IH. eapply step_balances_ok; [apply serve_step|exact Hd].
Qed.

(** X1. Every event the pipeline has stored carries the columns of its kind: a
    commitment has a description and an amount above zero, a balance
    update a balance that is not negative, a question its text; and no
    stored balance is negative or NaN. This holds after any sequence of
    requests, whatever the world does. *)
Theorem served_ledger_is_well_formed (qs : list Request) :
  events_ok (serve_all empty_db qs) ∧ balances_ok (serve_all empty_db qs).
Proof.
  split.
  - apply serve_all_events_ok. constructor.
  - apply serve_all_balances_ok. intros u b Hb. cbn in Hb. by rewrite lookup_empty in Hb.
Qed.

(** Event ids are positive, grow along the table and never exceed the
    sequence, so no two events share an id, also when refused commits
    have left gaps. *)
Theorem served_ids_are_unique (qs : list Request) :
  let d := serve_all empty_db qs in
  ids_ok d ∧ NoDup (FinancialRecord.id <$> financial_records (tables d)).
Proof.
  cbv zeta. pose proof (serve_all_ids_ok qs empty_db empty_db_ids_ok) as Hd.
  split; [exact Hd|]. destruct Hd as (Hs & _ & _).
  induction Hs as [|x l _ IH Hx]; constructor; [|exact IH].
  intros Hin. rewrite Forall_forall in Hx. specialize (Hx x Hin). lia.
Qed.

(** X2. A request never removes, changes or reorders a stored event: the rows
    before it are a prefix of the rows after it, which hold at most one
    more event, owned by the requesting user, carrying the raw text and
    the next id of the sequence. *)
Theorem ledger_is_append_only (qs : list Request) (q : Request) :
  let d := serve_all empty_db qs in
  let d' := serve d q in
  financial_records (tables d') = financial_records (tables d)
  ∨ ∃ r, financial_records (tables d') = financial_records (tables d) ++ [r]
         ∧ FinancialRecord.id r = id_seq d + 1
         ∧ FinancialRecord.user_id r = req_user q
         ∧ FinancialRecord.raw_input r = req_text q
         ∧ event_ok r = true
         ∧ id_seq d' = id_seq d + 1.
Proof.
  cbv zeta. apply step_rows; [|apply serve_step].
  apply serve_all_ids_ok, empty_db_ids_ok.
Qed.

(** ** One user's requests and the other users *)

Lemma step_balances_other (user_id text u : string) (d d' : Db) :
  request_step user_id text d d' →
  u ≠ user_id →
  user_balances (tables d') !! u = user_balances (tables d) !! u.
Proof.
  intros [Ht _ | r f _ _ _ _ _ _ _ Hbal _ | x t _ _ Hbal _] Hne.
  - by rewrite Ht.
  - by rewrite Hbal.
  - rewrite Hbal. by rewrite lookup_insert_ne.
Qed.

Lemma filter_snoc_false {A} (p : A → bool) (l : list A) (x : A) :
  p x = false → List.filter p (l ++ [x]) = List.filter p l.
Proof. intros Hp. rewrite List.filter_app. cbn. rewrite Hp. apply app_nil_r. Qed.

(** X3. A request of one user leaves every other user's view as it was: the
    history, the balance, the summary and the upcoming commitments. *)
Theorem requests_do_not_touch_other_users (qs : list Request) (q : Request)
    (u : string) (limit : nat) :
  u ≠ req_user q →
  let d := serve_all empty_db qs in
  let d' := serve d q in
  Api.get_user_history u limit d' = Api.get_user_history u limit d
  ∧ read_balance d' u = read_balance d u
  ∧ get_user_summary d' u = get_user_summary d u
  ∧ ∀ t0, Sql.upcoming_of u t0 (financial_records (tables d'))
          = Sql.upcoming_of u t0 (financial_records (tables d)).
Proof.
  intros Hne d d'.
  pose proof (serve_step d q) as Hstep. fold d' in Hstep.
  pose proof (step_balances_other _ _ u _ _ Hstep Hne) as Hbal.
  assert (Hids : ids_ok d) by apply serve_all_ids_ok, empty_db_ids_ok.
  assert (Hflt : ∀ p : FinancialRecord.t → bool,
            (∀ r, FinancialRecord.user_id r ≠ u → p r = false) →
            List.filter p (financial_records (tables d'))
            = List.filter p (financial_records (tables d))).
  { intros p Hp.
    destruct (step_rows _ _ _ _ Hids Hstep) as [->|(r & -> & _ & Hu & _)]; [reflexivity|].
    apply filter_snoc_false, Hp. rewrite Hu. congruence. }
  assert (Huser : ∀ r, FinancialRecord.user_id r ≠ u →
            bool_decide (FinancialRecord.user_id r = u) = false).
  { intros r Hr. by apply bool_decide_eq_false_2. }
  split; [|split; [|split]].
  - unfold Api.get_user_history. rewrite (Hflt _ Huser). reflexivity.
  - unfold read_balance. by rewrite Hbal.
  - unfold get_user_summary, recent_commitments, recent_history.
    rewrite Hbal, (Hflt _ Huser).
    rewrite (Hflt (fun r => bool_decide (FinancialRecord.user_id r = u)
                            && bool_decide (FinancialRecord.input_type r = FINANCIAL_COMMITMENT)));
      [reflexivity|].
    intros r Hr. by rewrite (Huser r Hr).
  - intros t0. unfold Sql.upcoming_of. rewrite (Hflt (Sql.is_upcoming u t0)); [reflexivity|].
    intros r Hr. unfold Sql.is_upcoming. by rewrite (Huser r Hr).
Qed.

(** ** The history *)

Lemma StronglySorted_filter {A} (R : A → A → Prop) (p : A → bool) (l : list A) :
  StronglySorted R l → StronglySorted R (List.filter p l).
Proof.
  induction 1 as [|x l _ IH Hx]; cbn; [constructor|].
  destruct (p x); [|exact IH]. constructor; [exact IH|].
  rewrite Forall_forall in Hx. apply Forall_forall. intros y Hy.
  apply Hx. apply list_elem_of_In in Hy. apply List.filter_In in Hy as [Hy _].
  by apply list_elem_of_In.
Qed.

Lemma StronglySorted_reverse {A} (R : A → A → Prop) (l : list A) :
  StronglySorted R l → StronglySorted (fun a b => R b a) (reverse l).
Proof.
  induction 1 as [|x l _ IH Hx]; [constructor|].
  rewrite reverse_cons. apply StronglySorted_snoc; [exact IH|].
  apply Forall_reverse. exact Hx.
Qed.

Lemma StronglySorted_take {A} (R : A → A → Prop) (n : nat) (l : list A) :
  StronglySorted R l → StronglySorted R (take n l).
Proof.
  intros Hl. revert n. induction Hl as [|x l _ IH Hx]; intros [|n]; cbn; try constructor.
  - apply IH.
  - rewrite Forall_forall in Hx. apply Forall_forall. intros y Hy.
    apply Hx. by apply (subseteq_take n).
Qed.

Lemma StronglySorted_by_id (l : list FinancialRecord.t) :
  StronglySorted Z.lt (FinancialRecord.id <$> l) →
  StronglySorted (fun a b => FinancialRecord.id a < FinancialRecord.id b) l.
Proof.
  induction l as [|x l IH]; cbn; [constructor|].
  intros Hs. apply StronglySorted_inv in Hs as [Hs Hx].
  constructor; [by apply IH|].
  rewrite Forall_forall in Hx. apply Forall_forall. intros y Hy.
  apply Hx. by apply list_elem_of_fmap_2.
Qed.

(** X14. On a served ledger the history of a user holds only events of that
    user, at most [limit] of them (all of them when there are no more),
    from the highest id down. *)
Theorem history_is_newest_first (qs : list Request) (u : string) (limit : nat) :
  let d := serve_all empty_db qs in
  let h := Api.get_user_history u limit d in
  Forall (fun r => FinancialRecord.user_id r = u ∧ r ∈ financial_records (tables d)) h
  ∧ length h
    = Nat.min limit
        (length (List.filter (fun r => bool_decide (FinancialRecord.user_id r = u))
                             (financial_records (tables d))))
  ∧ StronglySorted (fun a b => FinancialRecord.id b < FinancialRecord.id a) h.
Proof.
  intros d h. subst h. unfold Api.get_user_history. split; [|split].
  - apply Forall_forall. intros r Hr.
    apply (subseteq_take limit) in Hr. rewrite elem_of_reverse in Hr.
    apply list_elem_of_In in Hr.
    apply List.filter_In in Hr as [Hin Hu]. apply bool_decide_eq_true_1 in Hu.
    split; [exact Hu|]. by apply list_elem_of_In.
  - rewrite length_take, length_reverse. reflexivity.
  - apply StronglySorted_take.
    apply (StronglySorted_reverse
             (fun a b => FinancialRecord.id a < FinancialRecord.id b)).
    apply StronglySorted_filter, StronglySorted_by_id.
    apply (serve_all_ids_ok qs empty_db empty_db_ids_ok).
Qed.

(** ** The advice generator and the question handler *)

Lemma sum_amounts_raises (cs : list CommitmentItem) (acc : float) :
  (∃ c, c ∈ cs ∧ item_amount c = None) →
  GeminiService.sum_amounts acc cs = inl TypeError.
Proof.
  revert acc. induction cs as [|c cs IH]; intros acc (x & Hx & Hnone).
  - by apply elem_of_nil in Hx.
  - cbn. destruct (item_amount c) as [a|] eqn:Ha; [|reflexivity].
    apply IH. apply elem_of_cons in Hx as [->|Hx]; [congruence|eauto].
Qed.

Lemma sum_amounts_returns (cs : list CommitmentItem) (acc : float) :
  Forall (fun c => is_Some (item_amount c)) cs →
  ∃ total, GeminiService.sum_amounts acc cs = inr total.
Proof.
  intros Hcs. revert acc. induction Hcs as [|c cs [a Ha] _ IH]; intros acc; cbn; [eauto|].
  rewrite Ha. apply IH.
Qed.

(** X7. The advice generator adds up the amounts before it contacts the
    backend: it raises a TypeError exactly when an entry has no amount,
    also when the backend would have answered; otherwise it returns the
    backend's answer when there is one. *)
Theorem generate_advice_raises_on_missing_amount
    (backend : option string) (question : string) (current_balance : float)
    (upcoming_commitments : list CommitmentItem) (target_amount : option float) :
  ((∃ c, c ∈ upcoming_commitments ∧ item_amount c = None)
   ↔ GeminiService.generate_advice backend question current_balance
       upcoming_commitments target_amount = inl TypeError)
  ∧ (Forall (fun c => is_Some (item_amount c)) upcoming_commitments →
     ∃ total,
       GeminiService.sum_amounts 0 upcoming_commitments = inr total
       ∧ GeminiService.generate_advice backend question current_balance
           upcoming_commitments target_amount
         = inr (match backend with
                | Some text => text
                | None => GeminiService.fallback_advice current_balance total target_amount
                end)).
Proof.
  unfold GeminiService.generate_advice. split; [split|].
  - intros Hnone. by rewrite (sum_amounts_raises _ _ Hnone).
  - destruct (decide (Forall (fun c => is_Some (item_amount c)) upcoming_commitments))
      as [Hall|Hex].
    + destruct (sum_amounts_returns _ 0%float Hall) as [total ->]. cbn.
      by destruct backend.
    + intros _. apply not_Forall_Exists in Hex; [|apply _].
      apply Exists_exists in Hex as (c & Hc & Hn).
      exists c. split; [exact Hc|]. by apply eq_None_not_Some.
  - intros Hall. destruct (sum_amounts_returns _ 0%float Hall) as [total Ht].
    exists total. split; [exact Ht|]. rewrite Ht. cbn. by destruct backend.
Qed.

Lemma upcoming_amounts_present (d : Db) (u : string) (t0 : datetime) :
  events_ok d →
  Forall (fun c => is_Some (item_amount c))
    (item_of <$> Sql.upcoming_of u t0 (financial_records (tables d))).
Proof.
  intros Hd. apply Forall_fmap, Forall_forall. intros r Hr. cbn.
  unfold Sql.upcoming_of in Hr.
  apply (subseteq_take 10), elem_of_order_by_date, list_elem_of_In in Hr.
  apply List.filter_In in Hr as [Hin Hup].
  unfold events_ok in Hd. rewrite Forall_forall in Hd.
  apply list_elem_of_In in Hin. specialize (Hd r Hin).
  unfold Sql.is_upcoming in Hup. apply andb_prop in Hup as [Hup _].
  apply andb_prop in Hup as [_ Hty]. apply bool_decide_eq_true_1 in Hty.
  unfold event_ok in Hd. rewrite Hty in Hd.
  destruct (FinancialRecord.amount r); [eauto|].
  by rewrite andb_false_r in Hd.
Qed.

(** X6. On a served ledger a question with a valid payload is answered
    whenever its commit goes through, whatever the index and the advice
    backend do: the advice is the backend's or the fallback's, the
    envelope reports the balance read from the balance row, the number of
    upcoming commitments and the number of index matches (0 when the index
    raises), and one QUESTION event is appended. *)
Theorem question_is_answered_on_served_ledger (qs : list Request) (w : World)
    (user_id text : string) (payload : gmap string pyval) (q : QuestionData) :
  Schema.validate_question payload = inr q →
  commit_ok w 0 = true →
  let d := serve_all empty_db qs in
  let upcoming := item_of <$> Sql.upcoming_of user_id (now w) (financial_records (tables d)) in
  ∃ (total : float) (result : ProcessedResult),
    GeminiService.sum_amounts 0 upcoming = inr total
    ∧ Sql.run (_handle_question w user_id text payload) d
      = (inr result,
         {| tables :=
              {| financial_records :=
                   financial_records (tables d)
                   ++ [question_event (id_seq d + 1) user_id text (qd_question q)];
                 user_balances := user_balances (tables d) |};
            id_seq := id_seq d + 1 |})
    ∧ success result = true
    ∧ advice result
      = Some (match advice_backend w with
              | Some answer => answer
              | None => GeminiService.fallback_advice (read_balance d user_id) total
                          (qd_target_amount q)
              end)
    ∧ data result ≫= (.!! "current_balance") = Some (VFloat (read_balance d user_id))
    ∧ data result ≫= (.!! "upcoming_commitments_count")
      = Some (VInt (Z.of_nat (length upcoming)))
    ∧ data result ≫= (.!! "relevant_commitments_from_vector_db")
      = Some (VInt (Z.of_nat (match index_matches w with
                              | Some l => length l
                              | None => 0%nat
                              end))).
Proof.
  intros Hv Hc d upcoming.
  assert (Hd : events_ok d) by (apply serve_all_events_ok; constructor).
  destruct (sum_amounts_returns upcoming 0%float
              (upcoming_amounts_present d user_id (now w) Hd)) as [total Ht].
  exists total.
  assert (Hadv : GeminiService.generate_advice (advice_backend w) (qd_question q)
                   (read_balance d user_id) upcoming (qd_target_amount q)
                 = inr (match advice_backend w with
                        | Some answer => answer
                        | None => GeminiService.fallback_advice (read_balance d user_id)
                                    total (qd_target_amount q)
                        end)).
  { unfold GeminiService.generate_advice. rewrite Ht. cbn.
    by destruct (advice_backend w). }
  unfold _handle_question. rewrite Hv. run_handler.
  unfold PineconeService.query_relevant_commitments.
  fold upcoming. fold (read_balance d user_id).
  destruct (index_matches w) as [l|]; cbn; rewrite Hadv; cbn; rewrite Hc; cbn;
    (eexists; split; [exact Ht|]; split; [reflexivity|]; split; [reflexivity|];
     split; [reflexivity|]; cbn;
     split; [by simplify_map_eq|]; split; by simplify_map_eq).
Qed.

(** ** The commitment handler and its back-reference *)


(** ** Texts without a number on the fallback path *)

Lemma fallback_without_digit (text : string) :
  PyStr.has_digit text = false →
  GeminiService._fallback_classification text
  = inr (if PyStr.contains_any GeminiService.balance_words (PyStr.lower text)
         then {| input_type := BALANCE_UPDATE; confidence := 0.7;
                 extracted_data := {[ "balance" := VInt 0 ]} |}
         else if PyStr.contains_any GeminiService.question_words (PyStr.lower text)
         then {| input_type := QUESTION; confidence := 0.7;
                 extracted_data :=
                   <[ "question" := VStr text ]> {[ "target_amount" := VFloat 0 ]} |}
         else {| input_type := FINANCIAL_COMMITMENT; confidence := 0.6;
                 extracted_data :=
                   <[ "description" := VStr text ]>
                     (<[ "amount" := VInt 0 ]> {[ "date" := VNone ]}) |}).
Proof.
  intros Hd. unfold GeminiService._fallback_classification.
  rewrite (extract_amount_no_digit text Hd).
  by repeat destruct (PyStr.contains_any _ _).
Qed.

(** X10. When the classifier backend is down, a text that holds a balance word
    ("balance", "have", "now", "current") and no digit is taken as a
    balance update of 0: if the commit goes through, the request succeeds
    and the user's balance is overwritten with 0. *)
Theorem fallback_balance_without_number_sets_zero (w : World) (user_id text : string)
    (d : Db) :
  primary w = None →
  PyStr.has_digit text = false →
  PyStr.contains_any GeminiService.balance_words (PyStr.lower text) = true →
  commit_ok w 0 = true →
  ∃ (result : ProcessedResult) (d' : Db),
    Api.process_financial_input w user_id text d = (Ok200 result, d')
    ∧ message result = "Balance updated to $0.00"
    ∧ read_balance d' user_id = 0%float
    ∧ financial_records (tables d')
      = financial_records (tables d) ++ [balance_event (id_seq d + 1) user_id text 0].
Proof.
  intros Hp Hd Hw Hc.
  assert (Hcls : GeminiService.classify_and_extract (primary w) text
                 = inr {| input_type := BALANCE_UPDATE; confidence := 0.7;
                          extracted_data := {[ "balance" := VInt 0 ]} |}).
  { rewrite Hp. cbn. rewrite (fallback_without_digit text Hd), Hw. reflexivity. }
  assert (Hv : Schema.validate_balance {[ "balance" := VInt 0 ]}
               = inr {| bd_balance := 0 |}) by (vm_compute; reflexivity).
  unfold Api.process_financial_input.
  rewrite (process_input_routes _ _ _ _ _ Hcls). cbn [input_type extracted_data].
  unfold _handle_balance_update. rewrite Hv. run_handler.
  destruct (user_balances (tables d) !! user_id); cbn; rewrite Hc; cbn;
    eexists _, _; (split; [reflexivity|]); (split; [vm_compute; reflexivity|]);
    (split; [|reflexivity]); unfold read_balance; cbn; by rewrite lookup_insert_eq.
Qed.

(** X11. When the classifier backend is down, a text with no digit and none of
    the balance or question words is taken as a commitment of amount 0,
    which the validation refuses: the request fails with a 500 and the
    database is as before. *)
Theorem fallback_commitment_without_number_fails (w : World) (user_id text : string)
    (d : Db) :
  primary w = None →
  PyStr.has_digit text = false →
  PyStr.contains_any GeminiService.balance_words (PyStr.lower text) = false →
  PyStr.contains_any GeminiService.question_words (PyStr.lower text) = false →
  Api.process_financial_input w user_id text d = (Error500, d).
Proof.
  intros Hp Hd Hb Hq.
  assert (Hcls : GeminiService.classify_and_extract (primary w) text
                 = inr {| input_type := FINANCIAL_COMMITMENT; confidence := 0.6;
                          extracted_data :=
                            <[ "description" := VStr text ]>
                              (<[ "amount" := VInt 0 ]> {[ "date" := VNone ]}) |}).
  { rewrite Hp. cbn. rewrite (fallback_without_digit text Hd), Hb, Hq. reflexivity. }
  unfold Api.process_financial_input.
  rewrite (process_input_routes _ _ _ _ _ Hcls). cbn [input_type extracted_data].
  assert (Hv : Schema.validate_commitment
                 (<[ "description" := VStr text ]>
                    (<[ "amount" := VInt 0 ]> {[ "date" := VNone ]}))
               = inl (ValidationError "CommitmentData")).
  { unfold Schema.validate_commitment.
    rewrite lookup_insert_eq.
    rewrite (lookup_insert_ne _ "description" "amount") by discriminate.
    rewrite lookup_insert_eq. reflexivity. }
  unfold _handle_commitment. rewrite Hv. run_handler. by destruct d.
Qed.

(** ** The upcoming-commitments query *)

Lemma date_leb_total (a b : FinancialRecord.t) :
  Sql.date_leb a b = false → Sql.date_leb b a = true.
Proof.
  unfold Sql.date_leb.
  destruct (FinancialRecord.commitment_date a), (FinancialRecord.commitment_date b);
    try done.
  intros Hab. apply Z.leb_gt in Hab. apply Z.leb_le. lia.
Qed.

Lemma date_leb_trans (a b c : FinancialRecord.t) :
  Sql.date_leb a b = true → Sql.date_leb b c = true → Sql.date_leb a c = true.
Proof.
  unfold Sql.date_leb.
  destruct (FinancialRecord.commitment_date a), (FinancialRecord.commitment_date b),
    (FinancialRecord.commitment_date c); try done.
  intros Hab Hbc. apply Z.leb_le in Hab, Hbc. apply Z.leb_le. lia.
Qed.

Lemma insert_by_date_ascending (x : FinancialRecord.t) (l : list FinancialRecord.t) :
  dates_ascending l → dates_ascending (Sql.insert_by_date x l).
Proof.
  unfold dates_ascending. induction 1 as [|y l Hl IH Hy]; cbn.
  - repeat constructor.
  - destruct (Sql.date_leb x y) eqn:Hxy.
    + constructor; [by constructor|]. constructor; [exact Hxy|].
      eapply Forall_impl; [exact Hy|]. cbn. intros z Hz.
      by apply (date_leb_trans x y z).
    + constructor; [exact IH|]. apply Forall_forall. intros z Hz.
      apply elem_of_insert_by_date in Hz as [->|Hz]; [by apply date_leb_total|].
      rewrite Forall_forall in Hy. by apply Hy.
Qed.

Lemma order_by_date_ascending (l : list FinancialRecord.t) :
  dates_ascending (Sql.order_by_date l).
Proof.
  induction l as [|x l IH]; cbn; [constructor|]. by apply insert_by_date_ascending.
Qed.

(** X13. The commitments the question handler adds up are at most ten, all are
    commitments of the asking user found in the table, and they come in
    ascending order of date. *)
Theorem upcoming_is_bounded_and_ordered (user_id : string) (t0 : datetime)
    (rows : list FinancialRecord.t) :
  let l := Sql.upcoming_of user_id t0 rows in
  (length l ≤ 10)%nat
  ∧ Forall (fun r => FinancialRecord.user_id r = user_id
                     ∧ FinancialRecord.input_type r = FINANCIAL_COMMITMENT
                     ∧ r ∈ rows) l
  ∧ dates_ascending l.
Proof.
  intros l. subst l. unfold Sql.upcoming_of. split; [|split].
  - rewrite length_take. lia.
  - apply Forall_forall. intros r Hr.
    apply (subseteq_take 10), elem_of_order_by_date, list_elem_of_In in Hr.
    apply List.filter_In in Hr as [Hin Hup].
    unfold Sql.is_upcoming in Hup. apply andb_prop in Hup as [Hup _].
    apply andb_prop in Hup as [Hu Hty].
    apply bool_decide_eq_true_1 in Hu, Hty.
    split; [exact Hu|]. split; [exact Hty|]. by apply list_elem_of_In.
  - apply StronglySorted_take, order_by_date_ascending.
Qed.

(** ** The summary *)

Lemma positive_is_truthy (x : float) :
  PrimFloat.ltb 0 x = true → PyFloat.truthy x = true.
Proof.
  unfold PyFloat.truthy. rewrite FloatAxioms.ltb_spec, FloatAxioms.eqb_spec.
  change (Prim2SF 0) with (S754_zero false).
  destruct (Prim2SF x) as [s|s| |s m e]; cbn; try discriminate; try reflexivity;
    destruct s; cbn; try discriminate; reflexivity.
Qed.

(** X15. For a user with no event and no balance row the summary is empty: a
    balance of 0.0, the integer 0 as total, no commitments, no history. *)
Theorem summary_of_unknown_user (d : Db) (user_id : string) :
  Forall (fun r => FinancialRecord.user_id r ≠ user_id) (financial_records (tables d)) →
  user_balances (tables d) !! user_id = None →
  get_user_summary d user_id
  = {| summary_current_balance := 0;
       summary_total_commitments := VInt 0;
       summary_commitments := [];
       summary_recent_history := [] |}.
Proof.
  intros Hrows Hbal. unfold get_user_summary, recent_commitments, recent_history.
  rewrite Hbal.
  assert (Hflt : ∀ p : FinancialRecord.t → bool,
            (∀ r, FinancialRecord.user_id r ≠ user_id → p r = false) →
            List.filter p (financial_records (tables d)) = []).
  { intros p Hp. induction Hrows as [|r l Hr _ IH]; [reflexivity|].
    cbn. by rewrite (Hp r Hr). }
  assert (Huser : ∀ r, FinancialRecord.user_id r ≠ user_id →
            bool_decide (FinancialRecord.user_id r = user_id) = false).
  { intros r Hr. by apply bool_decide_eq_false_2. }
  rewrite !Hflt; [reflexivity| |].
  - exact Huser.
  - intros r Hr. by rewrite (Huser r Hr).
Qed.

(** X16. On a served ledger the summary shows the balance of the latest balance
    update (0.0 without one), at most ten commitments and twenty history
    entries, and its total adds up every listed commitment, none being
    skipped; the total is the integer 0 when no commitment is listed. *)
Theorem summary_on_served_ledger (qs : list Request) (user_id : string) :
  let d := serve_all empty_db qs in
  let s := get_user_summary d user_id in
  let listed := recent_commitments user_id (financial_records (tables d)) in
  match last_balance_update user_id (financial_records (tables d)) with
  | Some r => FinancialRecord.balance r = Some (summary_current_balance s)
  | None => summary_current_balance s = 0%float
  end
  ∧ (length (summary_commitments s) ≤ 10)%nat
  ∧ (length (summary_recent_history s) ≤ 20)%nat
  ∧ item_amount <$> summary_commitments s = FinancialRecord.amount <$> listed
  ∧ ∃ amounts : list float,
      FinancialRecord.amount <$> listed = Some <$> amounts
      ∧ summary_total_commitments s
        = match amounts with
          | [] => VInt 0
          | _ => VFloat (fold_left PrimFloat.add amounts 0%float)
          end.
Proof.
  intros d s listed. split; [|split; [|split; [|split]]].
  - exact (serve_all_invariant qs empty_db empty_db_invariant user_id).
  - subst s. cbn. rewrite length_fmap. unfold recent_commitments.
    rewrite length_take. lia.
  - subst s. cbn. rewrite length_fmap. unfold recent_history.
    rewrite length_take. lia.
  - subst s. cbn. fold listed. rewrite <- list_fmap_compose. reflexivity.
  - assert (Hd : events_ok d) by (apply serve_all_events_ok; constructor).
    assert (Hl : Forall (fun r => ∃ a, FinancialRecord.amount r = Some a
                                       ∧ PyFloat.truthy a = true) listed).
    { apply Forall_forall. intros r Hr. subst listed. unfold recent_commitments in Hr.
      apply (subseteq_take 10) in Hr. rewrite elem_of_reverse in Hr.
      apply list_elem_of_In, List.filter_In in Hr as [Hin Hp].
      apply andb_prop in Hp as [_ Hty]. apply bool_decide_eq_true_1 in Hty.
      unfold events_ok in Hd. rewrite Forall_forall in Hd.
      apply list_elem_of_In in Hin. specialize (Hd r Hin).
      unfold event_ok in Hd. rewrite Hty in Hd.
      destruct (FinancialRecord.amount r) as [a|]; [|by rewrite andb_false_r in Hd].
      exists a. split; [reflexivity|]. apply positive_is_truthy.
      apply andb_prop in Hd as [Hd _]. apply andb_prop in Hd as [Hd _].
      by apply andb_prop in Hd as [_ Hd]. }
    subst s. cbn. fold listed. clearbody listed. clear -Hl.
    exists (truthy_amounts listed). unfold py_sum. split; [|reflexivity].
    induction Hl as [|r l (a & Ha & Hta) _ IH]; [reflexivity|].
    cbn. unfold truthy_amounts in *. cbn. rewrite Ha, Hta. cbn. by rewrite IH.
Qed.

(** ** What the answer of a request tells about the tables *)





(** X5. Only a balance update writes a balance: a request classified as a
    commitment or as a question leaves every balance row as it was. *)
Theorem only_balance_updates_write_balances (w : World) (user_id text : string)
    (c : ClassifiedInput) (d : Db) :
  GeminiService.classify_and_extract (primary w) text = inr c →
  input_type c ≠ BALANCE_UPDATE →
  user_balances (tables (Api.process_financial_input w user_id text d).2)
  = user_balances (tables d).
Proof.
  intros Hc Hty. unfold Api.process_financial_input.
  rewrite (process_input_routes _ _ _ _ _ Hc).
  assert (Hb : ∀ x : (exn + ProcessedResult) * Db,
            user_balances (tables x.2) = user_balances (tables d) →
            user_balances (tables (match x with
                                   | (inr r, d') => (Ok200 r, d')
                                   | (inl _, d') => (Error500, d')
                                   end).2) = user_balances (tables d)).
  { by intros [[e|r] d']. }
  apply Hb. destruct (input_type c); [|done|].
  - unfold _handle_commitment.
    destruct (Schema.validate_commitment _) as [e|cd]; run_handler; [done|].
    destruct (commit_ok w 0); cbn; [|done].
    unfold PineconeService.store_commitment.
    destruct (index_upsert_ok w); cbn; [destruct (commit_ok w 1); cbn|]; reflexivity.
  - unfold _handle_question.
    destruct (Schema.validate_question _) as [e|q]; run_handler; [done|].
    unfold PineconeService.query_relevant_commitments.
    destruct (index_matches w); cbn;
      (destruct (GeminiService.generate_advice _ _ _ _ _); cbn; [done|]);
      destruct (commit_ok w 0); cbn; reflexivity.
Qed.

End Pipeline.

(* ===================================================================== *)
(** * Properties of the index key and of numbers with commas *)
(* ===================================================================== *)

Section Keys.

Lemma append_cons (c : ascii) (s t : string) : String c s +:+ t = String c (s +:+ t).
Proof. reflexivity. Qed.

Lemma append_nil (t : string) : EmptyString +:+ t = t.
Proof. reflexivity. Qed.


Lemma digit_char_facts (d : Z) :
  0 ≤ d < 10 →
  PyStr.is_digit (PyStr.digit_char d) = true
  ∧ PyStr.digit_val (PyStr.digit_char d) = d.
Proof.
  intros Hd.
  assert (d = 0 ∨ d = 1 ∨ d = 2 ∨ d = 3 ∨ d = 4 ∨ d = 5 ∨ d = 6 ∨ d = 7 ∨ d = 8 ∨ d = 9)
    as Hcases by lia.
  repeat (destruct Hcases as [->|Hcases]; [split; reflexivity|]).
  subst d. split; reflexivity.
Qed.

Lemma digits_value_app (s t : string) (a : Z) :
  PyStr.digits_value a (s +:+ t) = PyStr.digits_value (PyStr.digits_value a s) t.
Proof. revert a. induction s as [|c s IH]; intros a; cbn; [reflexivity|apply IH]. Qed.

Lemma all_digits_app (s t : string) :
  PyStr.all_digits (s +:+ t) = PyStr.all_digits s && PyStr.all_digits t.
Proof.
  induction s as [|c s IH]; rewrite ?append_cons, ?append_nil; simpl; [reflexivity|]. rewrite IH. apply andb_assoc.
Qed.

Lemma string_app_assoc (s t u : string) : (s +:+ t) +:+ u = s +:+ (t +:+ u).
Proof. induction s as [|c s IH]; rewrite ?append_cons, ?append_nil; simpl; [reflexivity|]. by rewrite IH. Qed.

Lemma string_length_app (s t : string) :
  String.length (s +:+ t) = (String.length s + String.length t)%nat.
Proof. induction s as [|c s IH]; rewrite ?append_cons, ?append_nil; simpl; [reflexivity|]. by rewrite IH. Qed.

(** The digits written for [n] read back as [n]. *)
Lemma digits_of_reads_back (fuel : nat) (n : Z) (acc : string) :
  0 ≤ n < 10 ^ Z.of_nat fuel →
  ∃ ds, PyStr.digits_of fuel n acc = ds +:+ acc
        ∧ PyStr.all_digits ds = true
        ∧ ∀ a, PyStr.digits_value a ds = a * 10 ^ Z.of_nat (String.length ds) + n.
Proof.
  revert n acc. induction fuel as [|k IH]; intros n acc Hn.
  - exists EmptyString. cbn in *. split; [reflexivity|]. split; [reflexivity|].
    intros a. lia.
  - cbn [PyStr.digits_of].
    assert (Hmod : 0 ≤ n mod 10 < 10) by (apply Z.mod_pos_bound; lia).
    destruct (digit_char_facts _ Hmod) as [Hdig Hval].
    destruct (n / 10 =? 0) eqn:Hq.
    + apply Z.eqb_eq in Hq.
      exists (String (PyStr.digit_char (n mod 10)) EmptyString).
      split; [reflexivity|]. split; [cbn; by rewrite Hdig|].
      intros a. cbn. rewrite Hval.
      pose proof (Z.div_mod n 10 ltac:(lia)). lia.
    + assert (Hn' : 0 ≤ n / 10 < 10 ^ Z.of_nat k).
      { split; [apply Z.div_pos; lia|].
        apply Z.div_lt_upper_bound; [lia|].
        replace (Z.of_nat (S k)) with (Z.succ (Z.of_nat k)) in Hn by lia.
        rewrite Z.pow_succ_r in Hn by lia. lia. }
      destruct (IH (n / 10) (String (PyStr.digit_char (n mod 10)) acc) Hn')
        as (ds & -> & Hds & Hv).
      exists (ds +:+ String (PyStr.digit_char (n mod 10)) EmptyString).
      split; [by rewrite string_app_assoc|].
      split; [rewrite all_digits_app, Hds; cbn; by rewrite Hdig|].
      intros a. rewrite digits_value_app, Hv. cbn. rewrite Hval.
      rewrite string_length_app. cbn [String.length].
      replace (Z.of_nat (String.length ds + 1)) with (Z.succ (Z.of_nat (String.length ds)))
        by lia.
      rewrite Z.pow_succ_r by lia.
      pose proof (Z.div_mod n 10 ltac:(lia)). lia.
Qed.

Lemma enough_fuel (n : Z) : 0 ≤ n → n < 10 ^ Z.of_nat (S (Z.to_nat (Z.log2 n))).
Proof.
  intros Hn. rewrite Nat2Z.inj_succ, Z2Nat.id by apply Z.log2_nonneg.
  destruct (decide (n = 0)) as [->|Hne]; [reflexivity|].
  pose proof (Z.log2_spec n ltac:(lia)) as [_ Hlt].
  eapply Z.lt_le_trans; [exact Hlt|].
  apply Z.pow_le_mono_l. pose proof (Z.log2_nonneg n). lia.
Qed.

Lemma of_Z_not_negative (n : Z) :
  0 ≤ n →
  PyStr.all_digits (PyStr.of_Z n) = true ∧ PyStr.digits_value 0 (PyStr.of_Z n) = n.
Proof.
  intros Hn. unfold PyStr.of_Z.
  assert ((n <? 0) = false) as -> by (apply Z.ltb_ge; lia).
  rewrite Z.abs_eq by lia.
  destruct (digits_of_reads_back _ n EmptyString (conj Hn (enough_fuel n Hn)))
    as (ds & -> & Hds & Hv).
  assert (ds +:+ EmptyString = ds) as ->.
  { clear. induction ds as [|c ds IH]; rewrite ?append_cons, ?append_nil; simpl; [reflexivity|]. by rewrite IH. }
  split; [exact Hds|]. rewrite Hv. lia.
Qed.

Lemma of_Z_negative (n : Z) :
  n < 0 → PyStr.of_Z n = String "-"%char (PyStr.of_Z (- n)).
Proof.
  intros Hn. unfold PyStr.of_Z.
  assert ((n <? 0) = true) as -> by (apply Z.ltb_lt; lia).
  assert ((- n <? 0) = false) as -> by (apply Z.ltb_ge; lia).
  by rewrite Z.abs_opp.
Qed.

(** [str] of an integer tells the integer. *)
Lemma of_Z_inj (n m : Z) : PyStr.of_Z n = PyStr.of_Z m → n = m.
Proof.
  intros Heq.
  destruct (Z_lt_le_dec n 0) as [Hn|Hn], (Z_lt_le_dec m 0) as [Hm|Hm].
  - rewrite (of_Z_negative n Hn), (of_Z_negative m Hm) in Heq.
    injection Heq as Heq.
    destruct (of_Z_not_negative (- n) ltac:(lia)) as [_ Hvn].
    destruct (of_Z_not_negative (- m) ltac:(lia)) as [_ Hvm].
    rewrite Heq in Hvn. lia.
  - rewrite (of_Z_negative n Hn) in Heq.
    destruct (of_Z_not_negative m Hm) as [Hd _]. rewrite <- Heq in Hd. discriminate.
  - rewrite (of_Z_negative m Hm) in Heq.
    destruct (of_Z_not_negative n Hn) as [Hd _]. rewrite Heq in Hd. discriminate.
  - destruct (of_Z_not_negative n Hn) as [_ Hvn].
    destruct (of_Z_not_negative m Hm) as [_ Hvm].
    rewrite Heq in Hvn. lia.
Qed.

Lemma digits_have_no_underscore (s : string) :
  PyStr.all_digits s = true → has_char "_"%char s = false.
Proof.
  induction s as [|c s IH]; rewrite ?append_cons, ?append_nil; simpl; [reflexivity|].
  intros Hs. apply andb_prop in Hs as [Hc Hs]. rewrite (IH Hs), orb_false_r.
  destruct (Ascii.eqb_spec c "_"%char) as [->|]; [discriminate Hc|reflexivity].
Qed.

Lemma of_Z_has_no_underscore (n : Z) : has_char "_"%char (PyStr.of_Z n) = false.
Proof.
  destruct (Z_lt_le_dec n 0) as [Hn|Hn].
  - rewrite (of_Z_negative n Hn). cbn.
    apply digits_have_no_underscore, of_Z_not_negative. lia.
  - apply digits_have_no_underscore, of_Z_not_negative, Hn.
Qed.

Lemma has_char_app (c : ascii) (s t : string) :
  has_char c (s +:+ t) = has_char c s || has_char c t.
Proof.
  induction s as [|d s IH]; rewrite ?append_cons, ?append_nil; simpl; [reflexivity|]. rewrite IH. apply orb_assoc.
Qed.

(** A key is split at its last underscore. *)
Lemma key_split (u u' t t' : string) :
  has_char "_"%char t = false →
  has_char "_"%char t' = false →
  u +:+ "_" +:+ t = u' +:+ "_" +:+ t' →
  u = u' ∧ t = t'.
Proof.
  intros Ht Ht'. revert u'.
  induction u as [|c u IH]; intros [|c' u']; rewrite ?append_cons, ?append_nil; simpl; intros Heq.
  - injection Heq as Heq. by split.
  - injection Heq as <- Heq. rewrite Heq, has_char_app in Ht. cbn in Ht.
    by rewrite orb_true_r in Ht.
  - injection Heq as -> Heq. rewrite <- Heq, has_char_app in Ht'. cbn in Ht'.
    by rewrite orb_true_r in Ht'.
  - injection Heq as -> Heq. destruct (IH u' Heq) as [-> ->]. by split.
Qed.

(** X9. The index key [user_id_id] of a mirrored event tells the user and the
    event: two keys are equal only for the same user and the same event
    id, also when user ids hold underscores. *)
Theorem vector_key_is_injective (user_id user_id' : string) (i i' : Z) :
  PineconeService.store_commitment true user_id (PyStr.of_Z i)
  = PineconeService.store_commitment true user_id' (PyStr.of_Z i')
  ↔ user_id = user_id' ∧ i = i'.
Proof.
  split; [|by intros [-> ->]].
  unfold PineconeService.store_commitment. intros Heq. injection Heq as Heq.
  apply key_split in Heq as [-> Heq]; try apply of_Z_has_no_underscore.
  split; [reflexivity|]. by apply of_Z_inj.
Qed.

(** ** Commas inside a number *)

Lemma remove_comma_digits (s : string) :
  PyStr.all_digits s = true → PyStr.remove_char ","%char s = s.
Proof.
  induction s as [|c s IH]; rewrite ?append_cons, ?append_nil; simpl; [reflexivity|].
  intros Hs. apply andb_prop in Hs as [Hc Hs]. rewrite (IH Hs).
  destruct (Ascii.eqb_spec c ","%char) as [->|]; [discriminate Hc|reflexivity].
Qed.

Lemma remove_char_app (c : ascii) (s t : string) :
  PyStr.remove_char c (s +:+ t) = PyStr.remove_char c s +:+ PyStr.remove_char c t.
Proof.
  induction s as [|d s IH]; rewrite ?append_cons, ?append_nil; simpl; [reflexivity|].
  rewrite IH. by destruct (Ascii.eqb d c).
Qed.

Lemma span_all_digits (s : string) :
  PyStr.all_digits s = true → PyStr.span_digits s = String.length s.
Proof.
  induction s as [|c s IH]; rewrite ?append_cons, ?append_nil; simpl; [reflexivity|].
  intros Hs. apply andb_prop in Hs as [-> Hs]. by rewrite IH.
Qed.

Lemma drop_length (s : string) : PyStr.drop (String.length s) s = EmptyString.
Proof. induction s as [|c s IH]; rewrite ?append_cons, ?append_nil; simpl; [reflexivity|exact IH]. Qed.

Lemma take_length (s : string) : PyStr.take (String.length s) s = s.
Proof. induction s as [|c s IH]; rewrite ?append_cons, ?append_nil; simpl; [reflexivity|]. by rewrite IH. Qed.

Lemma findall_from_skipped (s : string) (skip : nat) :
  (String.length s ≤ skip)%nat → Re.findall_from skip s = [].
Proof.
  revert skip. induction s as [|c s IH]; intros skip Hs; [reflexivity|].
  cbn in Hs. destruct skip as [|k]; [lia|]. cbn. apply IH. lia.
Qed.

Lemma findall_digits (s : string) :
  PyStr.all_digits s = true → s ≠ EmptyString → Re.findall s = [s].
Proof.
  intros Hs Hne. destruct s as [|c s]; [done|].
  unfold Re.findall. cbn [Re.findall_from].
  assert (Hm : Re.match_amount (String c s) = S (String.length s)).
  { unfold Re.match_amount. rewrite (span_all_digits _ Hs), drop_length. cbn. lia. }
  rewrite Hm. change (S (String.length s)) with (String.length (String c s)).
  rewrite take_length. f_equal. apply findall_from_skipped. lia.
Qed.

(** X12. Commas are removed before the scan, so they never separate two
    numbers: two runs of digits joined by a comma are read as one number,
    whatever the sizes of the runs ("2,3" is 23). *)
Theorem comma_joins_digit_runs (a b : string) :
  PyStr.all_digits a = true → a ≠ EmptyString →
  PyStr.all_digits b = true →
  GeminiService._extract_amount (a +:+ "," +:+ b) = PyFloat.float_of_str (a +:+ b).
Proof.
  intros Ha Hne Hb. unfold GeminiService._extract_amount.
  rewrite remove_char_app, (remove_comma_digits a Ha). rewrite ?append_cons, ?append_nil; simpl.
  rewrite (remove_comma_digits b Hb).
  rewrite findall_digits; [reflexivity| |].
  - by rewrite all_digits_app, Ha, Hb.
  - destruct a; [done|discriminate].
Qed.

End Keys.

(** ** The pipeline at concrete requests *)

Section PipelineExamples.
Import FinancialService.

(** A request of u1 as seen by u2. *)
Lemma requests_do_not_touch_other_users_witness :
  let q := balance_request "u1" "balance is 5000" 5000 in
  let d := serve_all (H := plain_lib) empty_db [] in
  let d' := serve (H := plain_lib) d q in
  "u2" ≠ req_user q
  ∧ Api.get_user_history "u2" 50 d' = Api.get_user_history "u2" 50 d
  ∧ read_balance d' "u2" = read_balance d "u2"
  ∧ get_user_summary (H := plain_lib) d' "u2" = get_user_summary (H := plain_lib) d "u2"
  ∧ ∀ t0, Sql.upcoming_of "u2" t0 (financial_records (tables d'))
          = Sql.upcoming_of "u2" t0 (financial_records (tables d)).
Proof.
  intros q d d'.
  assert (Hne : "u2" ≠ req_user q) by discriminate.
  split; [exact Hne|].
  exact (requests_do_not_touch_other_users (H := plain_lib) [] q "u2" 50 Hne).
Defined.

(** A question of u1 after a balance of 2000, every service being down. *)
Lemma question_is_answered_on_served_ledger_witness :
  let payload : gmap string pyval :=
    <[ "question" := VStr "can I afford a 3000 gadget?" ]>
      {[ "target_amount" := VFloat 3000 ]} in
  let q := {| qd_question := "can I afford a 3000 gadget?";
              qd_target_amount := Some 3000%float |} in
  Schema.validate_question (H := plain_lib) payload = inr q
  ∧ commit_ok offline_world 0 = true
  ∧ ∃ (total : float) (result : ProcessedResult),
      success result = true
      ∧ advice result
        = Some (GeminiService.fallback_advice 2000 total (Some 3000%float))
      ∧ data result ≫= (.!! "current_balance") = Some (VFloat 2000).
Proof.
  intros payload q.
  assert (Hv : Schema.validate_question (H := plain_lib) payload = inr q)
    by (vm_compute; reflexivity).
  split; [exact Hv|]. split; [reflexivity|].
  destruct (question_is_answered_on_served_ledger (H := plain_lib)
              [balance_request "u1" "balance is 2000" 2000] offline_world "u1"
              "can I afford a 3000 gadget?" payload q Hv eq_refl)
    as (total & result & _ & _ & Hs & Ha & Hb & _).
  exists total, result. split; [exact Hs|]. split; [exact Ha|]. exact Hb.
Defined.


(** "how much do I have?" while the classifier backend is down. *)
Lemma fallback_balance_without_number_sets_zero_witness :
  let text := "how much do I have?" in
  primary offline_world = None
  ∧ PyStr.has_digit text = false
  ∧ PyStr.contains_any GeminiService.balance_words (PyStr.lower text) = true
  ∧ commit_ok offline_world 0 = true
  ∧ ∃ (result : ProcessedResult) (d' : Db),
      Api.process_financial_input (H := plain_lib) offline_world "u1" text empty_db
      = (Ok200 result, d')
      ∧ message result = "Balance updated to $0.00"
      ∧ read_balance d' "u1" = 0%float
      ∧ financial_records (tables d')
        = financial_records (tables empty_db) ++ [balance_event (id_seq empty_db + 1) "u1" text 0].
Proof.
  intros text. split; [reflexivity|]. split; [reflexivity|].
  split; [reflexivity|]. split; [reflexivity|].
  exact (fallback_balance_without_number_sets_zero (H := plain_lib) offline_world "u1"
           text empty_db eq_refl eq_refl eq_refl eq_refl).
Defined.

(** "dinner Saturday" while the classifier backend is down. *)
Lemma fallback_commitment_without_number_fails_witness :
  let text := "dinner Saturday" in
  primary offline_world = None
  ∧ PyStr.has_digit text = false
  ∧ PyStr.contains_any GeminiService.balance_words (PyStr.lower text) = false
  ∧ PyStr.contains_any GeminiService.question_words (PyStr.lower text) = false
  ∧ Api.process_financial_input (H := plain_lib) offline_world "u1" text empty_db
    = (Error500, empty_db).
Proof.
  intros text. split; [reflexivity|]. split; [reflexivity|].
  split; [reflexivity|]. split; [reflexivity|].
  exact (fallback_commitment_without_number_fails (H := plain_lib) offline_world "u1"
           text empty_db eq_refl eq_refl eq_refl eq_refl).
Defined.

(** The summary of u1 on the empty database. *)
Lemma summary_of_unknown_user_witness :
  Forall (fun r => FinancialRecord.user_id r ≠ "u1") (financial_records (tables empty_db))
  ∧ user_balances (tables empty_db) !! "u1" = None
  ∧ get_user_summary (H := plain_lib) empty_db "u1"
    = {| summary_current_balance := 0;
         summary_total_commitments := VInt 0;
         summary_commitments := [];
         summary_recent_history := [] |}.
Proof.
  assert (Hrows : Forall (fun r => FinancialRecord.user_id r ≠ "u1")
                    (financial_records (tables empty_db))) by constructor.
  split; [exact Hrows|]. split; [reflexivity|].
  exact (summary_of_unknown_user (H := plain_lib) empty_db "u1" Hrows eq_refl).
Defined.

(** A classification of a question as seen by the balance table. *)
Lemma only_balance_updates_write_balances_witness :
  let text := "can I afford a 3000 gadget?" in
  let c := {| input_type := QUESTION; confidence := 0.7;
              extracted_data :=
                <[ "question" := VStr text ]> {[ "target_amount" := VFloat 3000 ]} |} in
  GeminiService.classify_and_extract (primary offline_world) text = inr c
  ∧ input_type c ≠ BALANCE_UPDATE
  ∧ user_balances
      (tables (Api.process_financial_input (H := plain_lib) offline_world "u1" text
                 empty_db).2)
    = user_balances (tables empty_db).
Proof.
  intros text c.
  assert (Hc : GeminiService.classify_and_extract (primary offline_world) text = inr c)
    by (vm_compute; reflexivity).
  assert (Hty : input_type c ≠ BALANCE_UPDATE) by discriminate.
  split; [exact Hc|]. split; [exact Hty|].
  exact (only_balance_updates_write_balances (H := plain_lib) offline_world "u1" text c
           empty_db Hc Hty).
Defined.

(** "2,3" is read as 23. *)
Lemma comma_joins_digit_runs_witness :
  PyStr.all_digits "2" = true
  ∧ "2" ≠ EmptyString
  ∧ PyStr.all_digits "3" = true
  ∧ GeminiService._extract_amount "2,3" = PyFloat.float_of_str "23".
Proof.
  assert (Hne : "2" ≠ EmptyString) by discriminate.
  split; [reflexivity|]. split; [exact Hne|]. split; [reflexivity|].
  exact (comma_joins_digit_runs "2" "3" eq_refl Hne eq_refl).
Defined.

End PipelineExamples.
